(** * Expense tracker: the query-filter and parsing layer of [main.py]

    A shallow embedding of [convert_str_to_date], [convert_date_to_string],
    [parse_response], [add_expense], [list_expenses], [log_expense],
    [view_logged_expenses] and [summarize_spending], together with the
    parts of the Python runtime ([str.split], [date.fromisoformat],
    [str(date)], [input]/[print], [+] and [str] on numbers) and of SQLite
    (parameter binding, column affinity, rowids, [LIKE], [DATE], [BETWEEN],
    [ORDER BY]) that these functions call.

    Conventions.
    - A [string] is a sequence of Unicode code points below U+0100; [len]
      counts code points, as Python does.
    - Python exceptions are explicit: a computation yields [Ret v] or
      [Raise e].  Python's [None] is [None] of an [option].
    - [input()] reads the head of an explicit list of pending input lines and
      raises [EOFError] when it is empty; [print] appends to a list of lines.
    - A number is a Python [int] or [float]; a [float] is an IEEE 754
      binary64 value, Rocq's primitive [float], and [float.__repr__] is
      computed from its exact value.
    - A connection is the content of the [expenses] table, a [list Row] in
      rowid order.  An amount is stored as SQLite's INTEGER or REAL and read
      back as an [int] or a [float].
    - SQLite's errors that depend on the statement and on the table are
      explicit: a [LIKE] pattern of more than 50000 bytes, a NULL in a
      NOT NULL column, an integer outside 64 bits, no rowid left.  The random
      source SQLite takes rowids from once the greatest rowid is in use is
      an argument, [random].  Failures of the file system under the database
      are not part of this development. *)

From Stdlib Require Import ZArith List String Ascii Bool Lia Permutation.
From Stdlib Require Import DecimalString.
From Stdlib Require Import Sorted.
From Stdlib Require PrimFloat SpecFloat FloatOps.
Import ListNotations.

Local Open Scope string_scope.
Local Open Scope Z_scope.

(* ================================================================== *)
(** * Python runtime *)

Module Py.

Inductive exn :=
| IndexError | ValueError | EOFError | ProgrammingError
| OverflowError | IntegrityError | OperationalError.

Inductive result (A : Type) :=
| Ret (v : A)
| Raise (e : exn).
Arguments Ret {A} v.
Arguments Raise {A} e.

Definition bind {A B} (m : result A) (k : A -> result B) : result B :=
  match m with
  | Ret v => k v
  | Raise e => Raise e
  end.

Definition exn_eqb (a b : exn) : bool :=
  match a, b with
  | IndexError, IndexError | ValueError, ValueError
  | EOFError, EOFError | ProgrammingError, ProgrammingError
  | OverflowError, OverflowError | IntegrityError, IntegrityError
  | OperationalError, OperationalError => true
  | _, _ => false
  end.

(** [try: body except e: handler] *)
Definition try_except {A} (body : result A) (e : exn) (handler : result A)
  : result A :=
  match body with
  | Ret v => Ret v
  | Raise e' => if exn_eqb e' e then handler else Raise e'
  end.

(** [len(s)] *)
Definition len (s : string) : Z := Z.of_nat (String.length s).

(** [s.split(sep)] for a one-character separator: every occurrence of
    [sep] separates two fields, so the result has one more element than
    [s] has separators and is never empty. *)
Fixpoint split (sep : ascii) (s : string) : list string :=
  match s with
  | EmptyString => [EmptyString]
  | String c s' =>
      if Ascii.eqb c sep then EmptyString :: split sep s'
      else match split sep s' with
           | w :: ws => String c w :: ws
           | [] => [String c EmptyString]
           end
  end.

(** [arr[i]] for a non-negative literal index *)
Definition getitem {A} (arr : list A) (i : nat) : result A :=
  match nth_error arr i with
  | Some v => Ret v
  | None => Raise IndexError
  end.

(** [arr[i] = v] for a non-negative literal index *)
Fixpoint setitem {A} (arr : list A) (i : nat) (v : A) : result (list A) :=
  match arr, i with
  | [], _ => Raise IndexError
  | _ :: t, O => Ret (v :: t)
  | h :: t, S i' => bind (setitem t i' v) (fun t' => Ret (h :: t'))
  end.

(** [str(n)] for an [int] *)
Definition str_int (n : Z) : string := NilZero.string_of_int (Z.to_int n).

Fixpoint zeros (n : nat) : string :=
  match n with
  | O => EmptyString
  | S n' => String "0" (zeros n')
  end.

(** ["%0<w>d" % n] *)
Definition fmt_0d (w : nat) (n : Z) : string :=
  if n <? 0 then
    let s := str_int (- n) in
    String "-" (zeros (w - 1 - String.length s) ++ s)
  else
    let s := str_int n in
    zeros (w - String.length s) ++ s.

(** [s[:n]] for [0 <= n] *)
Definition slice_to (s : string) (n : Z) : string :=
  substring 0 (Z.to_nat n) s.

(** ** Numbers *)

(** An [int] or a [float]. *)
Inductive number := PyInt (z : Z) | PyFloat (f : PrimFloat.float).

(** [float(z)] as the [+] of an [int] and a [float] computes it: the
    nearest binary64 value, ties to even, and [OverflowError] when that is
    beyond the largest finite one. *)
Definition int_to_float (z : Z) : result PrimFloat.float :=
  match SpecFloat.binary_normalize 53 1024 z 0 false with
  | SpecFloat.S754_infinity _ => Raise OverflowError
  | sf => Ret (FloatOps.SF2Prim sf)
  end.

(** [a + b] *)
Definition py_add (a b : number) : result number :=
  match a, b with
  | PyInt x, PyInt y => Ret (PyInt (x + y))
  | PyInt x, PyFloat g =>
      bind (int_to_float x) (fun f => Ret (PyFloat (PrimFloat.add f g)))
  | PyFloat f, PyInt y =>
      bind (int_to_float y) (fun g => Ret (PyFloat (PrimFloat.add f g)))
  | PyFloat f, PyFloat g => Ret (PyFloat (PrimFloat.add f g))
  end.

(** *** [repr] of a [float]

    The digits are the shortest decimal number that reads back as the
    float; of two such numbers of one length the nearer one, and of two
    equally near ones the one with the even last digit. *)

Definition dec_len (z : Z) : Z := Z.of_nat (String.length (str_int z)).

Definition in_interval (closed : bool) (lo x hi : Z) : bool :=
  if closed then (lo <=? x) && (x <=? hi) else (lo <? x) && (x <? hi).

(** The float is [m * 2^e] and lies in [10^(decpt-1), 10^decpt).  With
    [n] digits the candidates are [d * 10^k] and [(d+1) * 10^k] around it,
    [k = decpt - n]; a candidate reads back as the float when it is within
    half the distance to the neighbouring floats, the ends included when
    [m] is even.  All comparisons are between integers, both sides scaled by
    [4], by the powers of two and by the powers of ten. *)
Fixpoint shortest_from (fuel : nat) (n m e decpt : Z) : Z * Z :=
  let a := 2 ^ Z.max e 0 in
  let b := 2 ^ Z.max (- e) 0 in
  let k := decpt - n in
  let p := 10 ^ Z.max k 0 in
  let q := 10 ^ Z.max (- k) 0 in
  let d := (m * a * q) / (b * p) in
  match fuel with
  | O => (d, k)
  | S fuel' =>
      let power_of_two := (m =? 2 ^ 52) && (-1074 <? e) in
      let lo := (if power_of_two then 4 * m - 1 else 4 * m - 2) * a * q in
      let hi := (4 * m + 2) * a * q in
      let closed := Z.even m in
      let below := in_interval closed lo (4 * d * p * b) hi in
      let above := in_interval closed lo (4 * (d + 1) * p * b) hi in
      if below && above then
        match 2 * m * a * q ?= (2 * d + 1) * p * b with
        | Lt => (d, k)
        | Gt => (d + 1, k)
        | Eq => if Z.even d then (d, k) else (d + 1, k)
        end
      else if below then (d, k)
      else if above then (d + 1, k)
      else shortest_from fuel' (n + 1) m e decpt
  end.

Fixpoint strip_zeros (fuel : nat) (d k : Z) : Z * Z :=
  match fuel with
  | O => (d, k)
  | S fuel' =>
      if (d mod 10 =? 0) && negb (d =? 0)
      then strip_zeros fuel' (d / 10) (k + 1)
      else (d, k)
  end.

(** The digits of [m * 2^e] and the position of the decimal point after
    the first of them; seventeen digits always read back. *)
Definition shortest (m e : Z) : string * Z :=
  let a := 2 ^ Z.max e 0 in
  let b := 2 ^ Z.max (- e) 0 in
  let decpt := dec_len ((m * a * 10 ^ 340) / b) - 340 in
  let '(d, k) := shortest_from 17 1 m e decpt in
  let '(d, k) := strip_zeros 17 d k in
  (str_int d, dec_len d + k).

(** [repr(f)], which is also [str(f)]: exponent notation when the decimal
    point would be more than four places before the digits or more than
    sixteen places after the first, and otherwise the digits with the
    point in place, [.0] appended to a whole number. *)
Definition float_repr (f : PrimFloat.float) : string :=
  match FloatOps.Prim2SF f with
  | SpecFloat.S754_nan => "nan"
  | SpecFloat.S754_infinity s => if s then "-inf" else "inf"
  | SpecFloat.S754_zero s => if s then "-0.0" else "0.0"
  | SpecFloat.S754_finite s m e =>
      let '(digits, decpt) := shortest (Zpos m) e in
      let n := Z.of_nat (String.length digits) in
      (if s then "-" else EmptyString)
      ++ (if (decpt <=? -4) || (16 <? decpt) then
            let ex := decpt - 1 in
            substring 0 1 digits
            ++ (if 1 <? n
                then "." ++ substring 1 (String.length digits - 1) digits
                else EmptyString)
            ++ "e" ++ (if ex <? 0 then "-" else "+")
            ++ (if Z.abs ex <? 10 then "0" else EmptyString)
            ++ str_int (Z.abs ex)
          else if decpt <=? 0 then
            "0." ++ zeros (Z.to_nat (- decpt)) ++ digits
          else if n <=? decpt then
            digits ++ zeros (Z.to_nat (decpt - n)) ++ ".0"
          else
            substring 0 (Z.to_nat decpt) digits ++ "."
            ++ substring (Z.to_nat decpt) (Z.to_nat (n - decpt)) digits)
  end.

(** [str(x)] for a number *)
Definition str_number (x : number) : string :=
  match x with
  | PyInt z => str_int z
  | PyFloat f => float_repr f
  end.

End Py.

Import Py.

Declare Scope py_scope.
Notation "x <- m ;; k" := (Py.bind m (fun x => k))
  (at level 61, m at next level, right associativity) : py_scope.
Local Open Scope py_scope.

(* ================================================================== *)
(** * [datetime.date] *)

Module Datetime.

(** A [date] object.  The constructor [new_date] is the only way the
    program obtains one, so every date it holds satisfies [valid_date]. *)
Record date := mkdate { year : Z; month : Z; day : Z }.

Definition date_eqb (a b : date) : bool :=
  (year a =? year b) && (month a =? month b) && (day a =? day b).

Definition MINYEAR : Z := 1.
Definition MAXYEAR : Z := 9999.

Definition is_leap (y : Z) : bool :=
  (y mod 4 =? 0) && (negb (y mod 100 =? 0) || (y mod 400 =? 0)).

Definition _days_in_month : list Z :=
  [0; 31; 28; 31; 30; 31; 30; 31; 31; 30; 31; 30; 31].

Definition _days_before_month : list Z :=
  [0; 0; 31; 59; 90; 120; 151; 181; 212; 243; 273; 304; 334].

Definition days_in_month (y m : Z) : Z :=
  if (m =? 2) && is_leap y then 29
  else nth (Z.to_nat m) _days_in_month 0.

Definition days_before_month (y m : Z) : Z :=
  let days := nth (Z.to_nat m) _days_before_month 0 in
  if (2 <? m) && is_leap y then days + 1 else days.

Definition days_before_year (y : Z) : Z :=
  let y := y - 1 in
  y * 365 + y / 4 - y / 100 + y / 400.

Definition ymd_to_ord (y m d : Z) : Z :=
  days_before_year y + days_before_month y m + d.

Definition weekday (y m d : Z) : Z := (ymd_to_ord y m d + 6) mod 7.

Definition DI4Y : Z := 1461.
Definition DI100Y : Z := 36524.
Definition DI400Y : Z := 146097.

(** Proleptic Gregorian ordinal (1 = 0001-01-01) to year, month, day. *)
Definition ord_to_ymd (ordinal : Z) : Z * Z * Z :=
  let ordinal := ordinal - 1 in
  let n400 := ordinal / DI400Y in
  let n := ordinal mod DI400Y in
  let y := n400 * 400 + 1 in
  let n100 := n / DI100Y in
  let n := n mod DI100Y in
  let n4 := n / DI4Y in
  let n := n mod DI4Y in
  let n1 := n / 365 in
  let n := n mod 365 in
  let y := y + n100 * 100 + n4 * 4 + n1 in
  if (n1 =? 4) || (n100 =? 4) then (y - 1, 12, 31)
  else
    let leapyear := (n1 =? 3) && (negb (n4 =? 24) || (n100 =? 3)) in
    let m := Z.shiftr (n + 50) 5 in
    let preceding :=
      nth (Z.to_nat m) _days_before_month 0
      + (if (2 <? m) && leapyear then 1 else 0) in
    let '(m, preceding) :=
      if n <? preceding
      then (m - 1, preceding - days_in_month y (m - 1))
      else (m, preceding) in
    (y, m, n - preceding + 1).

Definition iso_week1_monday (y : Z) : Z :=
  let first_day := ymd_to_ord y 1 1 in
  let first_weekday := (first_day + 6) mod 7 in
  let week1_monday := first_day - first_weekday in
  if 3 <? first_weekday then week1_monday + 7 else week1_monday.

(** ISO year, week, weekday to year, month, day; [None] when a component
    is out of range. *)
Definition iso_to_ymd (iso_year iso_week iso_day : Z) : option (Z * Z * Z) :=
  if (iso_year <? MINYEAR) || (MAXYEAR <? iso_year) then None
  else
    let week_ok :=
      if (iso_week <=? 0) || (53 <=? iso_week) then
        (iso_week =? 53)
        && (let first_weekday := weekday iso_year 1 1 in
            (first_weekday =? 3)
            || ((first_weekday =? 2) && is_leap iso_year))
      else true in
    if negb week_ok then None
    else if (iso_day <=? 0) || (8 <=? iso_day) then None
    else
      let day_1 := iso_week1_monday iso_year in
      let day_offset := (iso_week - 1) * 7 + iso_day - 1 in
      Some (ord_to_ymd (day_1 + day_offset)).

(** The range check of the [date] constructor. *)
Definition valid_ymd (y m d : Z) : bool :=
  (MINYEAR <=? y) && (y <=? MAXYEAR)
  && (1 <=? m) && (m <=? 12)
  && (1 <=? d) && (d <=? days_in_month y m).

Definition valid_date (d : date) : bool :=
  valid_ymd (year d) (month d) (day d).

(** [date(y, m, d)] *)
Definition new_date (y m d : Z) : result date :=
  if valid_ymd y m d then Ret (mkdate y m d) else Raise ValueError.

Definition is_digit (c : ascii) : bool :=
  let n := N_of_ascii c in (48 <=? n)%N && (n <=? 57)%N.

Definition digit_val (c : ascii) : Z := Z.of_N (N_of_ascii c) - 48.

(** Reads exactly [n] ASCII digits; the end of the text stops it like any
    other non-digit. *)
Fixpoint parse_digits (n : nat) (acc : Z) (p : string) : option (Z * string) :=
  match n with
  | O => Some (acc, p)
  | S n' =>
      match p with
      | String c p' =>
          if is_digit c then parse_digits n' (acc * 10 + digit_val c) p'
          else None
      | EmptyString => None
      end
  end.

Definition starts_with (c : ascii) (p : string) : bool :=
  match p with
  | String c' _ => Ascii.eqb c' c
  | EmptyString => false
  end.

Definition advance (p : string) : string :=
  match p with
  | String _ p' => p'
  | EmptyString => EmptyString
  end.

(** The date forms [date.fromisoformat] reads since Python 3.11, the first
    version that takes the [YYYYMMDD] text [convert_str_to_date] hands it:
    [YYYY-MM-DD], [YYYYMMDD], [YYYY-Www], [YYYYWww], [YYYY-Www-D], [YYYYWwwD].
    Whatever follows a complete form is not looked at. *)
Definition parse_isoformat_date (dtstr : string) : option (Z * Z * Z) :=
  match parse_digits 4 0 dtstr with
  | None => None
  | Some (y, p) =>
      let uses_separator := starts_with "-" p in
      let p := if uses_separator then advance p else p in
      if starts_with "W" p then
        match parse_digits 2 0 (advance p) with
        | None => None
        | Some (iso_week, p) =>
            match p with
            | EmptyString => iso_to_ymd y iso_week 1
            | String _ _ =>
                if uses_separator && negb (starts_with "-" p) then None
                else
                  let p := if uses_separator then advance p else p in
                  match parse_digits 1 0 p with
                  | None => None
                  | Some (iso_day, _) => iso_to_ymd y iso_week iso_day
                  end
            end
        end
      else
        match parse_digits 2 0 p with
        | None => None
        | Some (m, p) =>
            if uses_separator && negb (starts_with "-" p) then None
            else
              let p := if uses_separator then advance p else p in
              match parse_digits 2 0 p with
              | None => None
              | Some (d, _) => Some (y, m, d)
              end
        end
  end.

(** Length of the UTF-8 encoding, which is what [fromisoformat] measures. *)
Fixpoint utf8_len (s : string) : Z :=
  match s with
  | EmptyString => 0
  | String c s' => (if (N_of_ascii c <? 128)%N then 1 else 2) + utf8_len s'
  end.

(** [date.fromisoformat(s)] *)
Definition fromisoformat (s : string) : result date :=
  let n := utf8_len s in
  if (n =? 7) || (n =? 8) || (n =? 10) then
    match parse_isoformat_date s with
    | Some (y, m, d) => new_date y m d
    | None => Raise ValueError
    end
  else Raise ValueError.

(** [str(d)], that is [d.isoformat()]: ["%04d-%02d-%02d"]. *)
Definition isoformat (d : date) : string :=
  fmt_0d 4 (year d) ++ "-" ++ fmt_0d 2 (month d) ++ "-" ++ fmt_0d 2 (day d).

End Datetime.

Import Datetime.

(* ================================================================== *)
(** * The date codec of [main.py] *)

(** [convert_str_to_date]: ['MM/DD/YYYY'] to a [date]. *)
Definition convert_str_to_date (s : string) : result (option date) :=
  try_except
    (let arr := split "/" s in
     a0 <- getitem arr 0 ;;
     arr <- (if len a0 <? 2 then setitem arr 0 ("0" ++ a0) else Ret arr) ;;
     a1 <- getitem arr 1 ;;
     arr <- (if len a1 <? 2 then setitem arr 1 ("0" ++ a1) else Ret arr) ;;
     a2 <- getitem arr 2 ;;
     a0 <- getitem arr 0 ;;
     a1 <- getitem arr 1 ;;
     d <- fromisoformat (a2 ++ a0 ++ a1) ;;
     Ret (Some d))
    IndexError
    (Ret None).

(** [convert_date_to_string]: a [date] to ['MM/DD/YYYY']. *)
Definition convert_date_to_string (date1 : date) : result string :=
  let arr := split "-" (isoformat date1) in
  a1 <- getitem arr 1 ;;
  a2 <- getitem arr 2 ;;
  a0 <- getitem arr 0 ;;
  Ret (a1 ++ "/" ++ a2 ++ "/" ++ a0).

(* ================================================================== *)
(** * The filter parser of [main.py] *)

(** The list [[category, start, end]] that [parse_response] returns. *)
Definition Filter : Type := string * option date * option date.

Definition dquote : string := String (ascii_of_nat 34) EmptyString.

Definition msg_tail : string :=
  dquote ++ "category startdate (enddate)" ++ dquote ++ " or " ++ dquote
  ++ "category all" ++ dquote ++ ". Type 4 to return to the main menu.".

Definition msg_format : string :=
  "Please try again. Your response must be in the format " ++ msg_tail.

Definition msg_date : string :=
  "Please enter a proper date in the format " ++ msg_tail.

(** What one pass through the body of the [while True] loop decides before
    it touches the terminal: [break] with the three values, one of the
    re-prompts, or an exception that escapes. *)
Inductive pass :=
| Break (category : string) (start end_ : option date)
| Reprompt (msg : string)
| Escapes (e : exn).

Definition parse_pass (response : string) : pass :=
  let words := split " " response in
  if (3 <? Z.of_nat (List.length words)) || (Z.of_nat (List.length words) <? 2) then
    Reprompt msg_format
  else
    let category := nth 0 words EmptyString in
    let w1 := nth 1 words EmptyString in
    let after_start (start : option date) : pass :=
      if 2 <? Z.of_nat (List.length words) then
        match convert_str_to_date (nth 2 words EmptyString) with
        | Raise e => Escapes e
        | Ret None => Reprompt msg_date
        | Ret (Some e) => Break category start (Some e)
        end
      else Break category start None in
    if negb (w1 =? "all")%string then
      match convert_str_to_date w1 with
      | Raise e => Escapes e
      | Ret None => Reprompt msg_date
      | Ret (Some s) => after_start (Some s)
      end
    else after_start None.

(** The terminal: lines still to be read by [input()], lines printed. *)
Record tty := mktty { pending : list string; printed : list string }.

(** [parse_response].  Every re-prompt reads one line into [words]; the
    sentinel ["4"] returns [None], anything else goes round the loop, whose
    first statement splits [response] again. *)
Fixpoint parse_response_loop (response : string) (pending printed : list string)
  : result (option Filter) * tty :=
  match parse_pass response with
  | Break category start end_ =>
      (Ret (Some (category, start, end_)), mktty pending printed)
  | Escapes e => (Raise e, mktty pending printed)
  | Reprompt msg =>
      let printed := (printed ++ [msg])%list in
      match pending with
      | [] => (Raise EOFError, mktty [] printed)
      | words :: pending' =>
          if (words =? "4")%string then (Ret None, mktty pending' printed)
          else parse_response_loop response pending' printed
      end
  end.

Definition parse_response (response : string) (t : tty)
  : result (option Filter) * tty :=
  parse_response_loop response (pending t) (printed t).

(* ================================================================== *)
(** * SQLite: the [expenses] table and the statements run against it *)

Module Sqlite.

Inductive value :=
| Null
| Integer (z : Z)
| Real (f : PrimFloat.float)
| Text (s : string).

(** One row of [expenses]:
    [id INTEGER PRIMARY KEY, amount INTEGER NOT NULL, category TEXT NOT NULL,
     desc TEXT DEFAULT 'No description', date TEXT NOT NULL].
    The amount is the number the [sqlite3] module reads back: an [int] for
    a value stored as INTEGER, a [float] for one stored as REAL. *)
Record Row := mkRow {
  id : Z;
  amount : number;
  category : string;
  desc : option string;
  date : string
}.

Inductive column := c_id | c_amount | c_category | c_desc | c_date.

Definition column_value (r : Row) (c : column) : value :=
  match c with
  | c_id => Integer (id r)
  | c_amount =>
      match amount r with
      | PyInt z => Integer z
      | PyFloat f => Real f
      end
  | c_category => Text (category r)
  | c_desc => match desc r with Some s => Text s | None => Null end
  | c_date => Text (date r)
  end.

(** ** The statements [list_expenses] can issue

    [SELECT id, amount, category, desc, date FROM expenses]
    [[WHERE cond AND ... AND cond] ORDER BY date DESC], where a condition
    is [col LIKE ?] for one of the text columns [category] and [desc],
    [DATE(date) = ?] or [DATE(date) BETWEEN ? AND ?]. *)

Inductive cond :=
| Like (c : column)
| DateIs
| DateBetween.

Definition tokens (sql : string) : list string :=
  filter (fun t => negb (t =? EmptyString)%string) (split " " sql).

Definition parse_column (t : string) : option column :=
  if (t =? "id")%string then Some c_id
  else if (t =? "amount")%string then Some c_amount
  else if (t =? "category")%string then Some c_category
  else if (t =? "desc")%string then Some c_desc
  else if (t =? "date")%string then Some c_date
  else None.

Definition is_text_column (c : column) : bool :=
  match c with
  | c_category | c_desc => true
  | _ => false
  end.

Definition parse_text_column (t : string) : option column :=
  match parse_column t with
  | Some c => if is_text_column c then Some c else None
  | None => None
  end.

Definition tok_is (t : string) (l : list string) : bool :=
  match l with
  | t' :: _ => (t' =? t)%string
  | [] => false
  end.

Definition cons_cond (c : cond) (tail : option (list cond * list string))
  : option (list cond * list string) :=
  match tail with
  | Some (cs, r) => Some (c :: cs, r)
  | None => None
  end.

(** [cond AND ... AND cond], and the tokens that follow it. *)
Fixpoint parse_conds (toks : list string) : option (list cond * list string) :=
  match toks with
  | x :: op :: q :: rest =>
      if negb (q =? "?")%string then None
      else if (op =? "LIKE")%string then
        match parse_text_column x with
        | Some c =>
            match rest with
            | a :: rest' =>
                if (a =? "AND")%string then cons_cond (Like c) (parse_conds rest')
                else Some ([Like c], rest)
            | [] => Some ([Like c], rest)
            end
        | None => None
        end
      else if negb (x =? "DATE(date)")%string then None
      else if (op =? "=")%string then
        match rest with
        | a :: rest' =>
            if (a =? "AND")%string then cons_cond DateIs (parse_conds rest')
            else Some ([DateIs], rest)
        | [] => Some ([DateIs], rest)
        end
      else if (op =? "BETWEEN")%string then
        match rest with
        | a :: q2 :: rest' =>
            if (a =? "AND")%string && (q2 =? "?")%string then
              match rest' with
              | a' :: rest'' =>
                  if (a' =? "AND")%string
                  then cons_cond DateBetween (parse_conds rest'')
                  else Some ([DateBetween], rest')
              | [] => Some ([DateBetween], rest')
              end
            else None
        | _ => None
        end
      else None
  | _ => None
  end.

Definition select_from : list string :=
  ["SELECT"; "id,"; "amount,"; "category,"; "desc,"; "date"; "FROM"; "expenses"].

Definition order_by : list string := ["ORDER"; "BY"; "date"; "DESC"].

Fixpoint strip_prefix (pre toks : list string) : option (list string) :=
  match pre, toks with
  | [], _ => Some toks
  | p :: pre', t :: toks' =>
      if (p =? t)%string then strip_prefix pre' toks' else None
  | _ :: _, [] => None
  end.

Definition is_end (toks : list string) : bool :=
  match strip_prefix order_by toks with
  | Some [] => true
  | _ => false
  end.

(** The [WHERE] conjuncts of a statement, [None] for a syntax error. *)
Definition parse (sql : string) : option (list cond) :=
  match strip_prefix select_from (tokens sql) with
  | None => None
  | Some rest =>
      if tok_is "WHERE" rest then
        match parse_conds (tl rest) with
        | Some (cs, rest') => if is_end rest' then Some cs else None
        | None => None
        end
      else if is_end rest then Some [] else None
  end.

(** A condition with its [?] placeholders bound. *)
Inductive bound :=
| BLike (c : column) (pattern : value)
| BDateIs (v : value)
| BDateBetween (lo hi : value).

(** Placeholders take the parameters left to right; [None] when the
    numbers of placeholders and of parameters differ. *)
Fixpoint bind_params (cs : list cond) (ps : list value) : option (list bound) :=
  match cs, ps with
  | [], [] => Some []
  | [], _ :: _ => None
  | Like c :: cs', p :: ps' =>
      option_map (cons (BLike c p)) (bind_params cs' ps')
  | DateIs :: cs', p :: ps' =>
      option_map (cons (BDateIs p)) (bind_params cs' ps')
  | DateBetween :: cs', lo :: hi :: ps' =>
      option_map (cons (BDateBetween lo hi)) (bind_params cs' ps')
  | _, _ => None
  end.

(** ** Evaluation, in three-valued logic: [None] is SQL's NULL *)

Definition and3 (a b : option bool) : option bool :=
  match a, b with
  | Some false, _ | _, Some false => Some false
  | Some true, Some true => Some true
  | _, _ => None
  end.

(** The place of a number on the line, in units of [2^-1074], of which
    every finite float is a whole multiple.  SQLite holds no NaN: it stores
    one as NULL. *)
Inductive extended := NegInf | Finite (z : Z) | PosInf.

Definition place (v : value) : option extended :=
  match v with
  | Integer z => Some (Finite (z * 2 ^ 1074))
  | Real f =>
      match FloatOps.Prim2SF f with
      | SpecFloat.S754_nan => None
      | SpecFloat.S754_zero _ => Some (Finite 0)
      | SpecFloat.S754_infinity s => Some (if s then NegInf else PosInf)
      | SpecFloat.S754_finite s m e =>
          Some (Finite ((if s then Zneg m else Zpos m) * 2 ^ (e + 1074)))
      end
  | _ => None
  end.

Definition compare_extended (a b : extended) : comparison :=
  match a, b with
  | NegInf, NegInf | PosInf, PosInf => Eq
  | NegInf, _ | _, PosInf => Lt
  | _, NegInf | PosInf, _ => Gt
  | Finite x, Finite y => x ?= y
  end.

(** Comparison of two values without column affinity: NULL compares to
    nothing, numbers compare by value and are below any text, texts
    compare byte-wise. *)
Definition compare (a b : value) : option comparison :=
  match a, b with
  | Null, _ | _, Null => None
  | Text x, Text y => Some (String.compare x y)
  | Text _, _ => option_map (fun _ => Gt) (place b)
  | _, Text _ => option_map (fun _ => Lt) (place a)
  | _, _ =>
      match place a, place b with
      | Some x, Some y => Some (compare_extended x y)
      | _, _ => None
      end
  end.

Definition eq3 (a b : value) : option bool :=
  option_map (fun c => match c with Eq => true | _ => false end) (compare a b).

Definition le3 (a b : value) : option bool :=
  option_map (fun c => match c with Gt => false | _ => true end) (compare a b).

Definition to_lower (c : ascii) : ascii :=
  let n := N_of_ascii c in
  if (65 <=? n)%N && (n <=? 90)%N then ascii_of_N (n + 32) else c.

(** The matching of [LIKE] on texts without a NUL character: [%] matches
    any run of characters, [_] any one character, any other character
    itself, letters A-Z and a-z regardless of case. *)
Fixpoint pattern_compare (pat s : string) {struct pat} : bool :=
  match pat with
  | EmptyString =>
      match s with
      | EmptyString => true
      | String _ _ => false
      end
  | String p pat' =>
      if Ascii.eqb p "%" then
        (fix any (s : string) : bool :=
           pattern_compare pat' s
           || match s with
              | EmptyString => false
              | String _ s' => any s'
              end) s
      else
        match s with
        | EmptyString => false
        | String c s' =>
            (Ascii.eqb p "_" || Ascii.eqb (to_lower p) (to_lower c))
            && pattern_compare pat' s'
        end
  end.

(** A text as a C string: what comes before its first NUL character. *)
Fixpoint c_str (s : string) : string :=
  match s with
  | EmptyString => EmptyString
  | String c s' =>
      if Ascii.eqb c Ascii.zero then EmptyString else String c (c_str s')
  end.

(** The matching of [s LIKE pat].  SQLite reads the pattern and the text
    as C strings, so what follows a NUL character in either takes no
    part. *)
Definition like (pat s : string) : bool :=
  pattern_compare (c_str pat) (c_str s).

(** [SQLITE_MAX_LIKE_PATTERN_LENGTH], in bytes. *)
Definition LIKE_PATTERN_LENGTH : Z := 50000.

(** The text of a value [LIKE] is applied to.  The statements of
    [list_expenses] apply it to the text columns and bind [str] patterns,
    so no REAL is turned into text here; SQLite's rendering of a REAL is not
    part of this development. *)
Definition text_of (v : value) : option string :=
  match v with
  | Null => None
  | Integer z => Some (str_int z)
  | Real _ => None
  | Text s => Some s
  end.

(** The number of bytes of a value read as text, NUL characters and what
    follows them included: a text is held in UTF-8. *)
Definition value_bytes (v : value) : Z :=
  match text_of v with
  | Some s => utf8_len s
  | None => 0
  end.

(** [x LIKE pattern].  The length of the pattern is checked first, whatever
    [x] is: a pattern of more than [LIKE_PATTERN_LENGTH] bytes is refused
    with the error [LIKE or GLOB pattern too complex], which the [sqlite3]
    module raises as [OperationalError]. *)
Definition like3 (x pattern : value) : result (option bool) :=
  if LIKE_PATTERN_LENGTH <? value_bytes pattern then Raise OperationalError
  else
    Ret match text_of x, text_of pattern with
        | Some s, Some pat => Some (like pat s)
        | _, _ => None
        end.

(** [s] is [YYYY-MM-DD] for a calendar date of the years 0001 to 9999,
    the form in which the program writes the [date] column. *)
Definition is_iso_date (s : string) : bool :=
  match parse_digits 4 0 s with
  | Some (y, p) =>
      starts_with "-" p
      && match parse_digits 2 0 (advance p) with
         | Some (m, p) =>
             starts_with "-" p
             && match parse_digits 2 0 (advance p) with
                | Some (d, EmptyString) => valid_ymd y m d
                | _ => false
                end
         | None => false
         end
  | None => false
  end.

(** [DATE(s)] on such a text is the text itself.  The other time strings
    SQLite understands do not occur in the column and are mapped to NULL. *)
Definition DATE (s : string) : value :=
  if is_iso_date s then Text s else Null.

Definition eval (r : Row) (b : bound) : result (option bool) :=
  match b with
  | BLike c pattern => like3 (column_value r c) pattern
  | BDateIs v => Ret (eq3 (DATE (date r)) v)
  | BDateBetween lo hi =>
      Ret (and3 (le3 lo (DATE (date r))) (le3 (DATE (date r)) hi))
  end.

(** The [WHERE] clause on one row.  The conjuncts are tested from left to
    right, and the row is dropped at the first that is not true: the
    conjuncts after it are not evaluated. *)
Fixpoint where_ (bs : list bound) (r : Row) : result bool :=
  match bs with
  | [] => Ret true
  | b :: bs' =>
      v <- eval r b ;;
      match v with
      | Some true => where_ bs' r
      | _ => Ret false
      end
  end.

(** The scan of the table: the rows that pass the [WHERE] clause, in table
    order.  An error on a row ends the statement. *)
Fixpoint select (bs : list bound) (conn : list Row) : result (list Row) :=
  match conn with
  | [] => Ret []
  | r :: conn' =>
      keep <- where_ bs r ;;
      rows <- select bs conn' ;;
      Ret (if keep then r :: rows else rows)
  end.

(** [ORDER BY date DESC]: rows with equal dates keep their table order. *)
Fixpoint insert_desc (r : Row) (l : list Row) : list Row :=
  match l with
  | [] => [r]
  | x :: l' =>
      if String.ltb (date r) (date x) then x :: insert_desc r l'
      else r :: l
  end.

Definition order_by_date_desc (l : list Row) : list Row :=
  fold_right insert_desc [] l.

(** [conn.execute(sql, params).fetchall()]: a text that is not a statement
    is an [OperationalError], a wrong number of parameters a
    [ProgrammingError]. *)
Definition execute (conn : list Row) (sql : string) (params : list value)
  : result (list Row) :=
  match parse sql with
  | None => Raise OperationalError
  | Some cs =>
      match bind_params cs params with
      | None => Raise ProgrammingError
      | Some bs =>
          rows <- select bs conn ;;
          Ret (order_by_date_desc rows)
      end
  end.

(** ** [INSERT INTO expenses (amount, category, desc, date)] *)

Definition INT64_MIN : Z := - 2 ^ 63.
Definition INT64_MAX : Z := 2 ^ 63 - 1.

(** The whole number a float is, when it is one. *)
Definition float_integral (f : PrimFloat.float) : option Z :=
  match FloatOps.Prim2SF f with
  | SpecFloat.S754_zero _ => Some 0
  | SpecFloat.S754_finite s m e =>
      let v := if s then Zneg m else Zpos m in
      if 0 <=? e then Some (v * 2 ^ e)
      else if Zpos m mod 2 ^ (- e) =? 0 then Some (v / 2 ^ (- e))
      else None
  | _ => None
  end.

(** The INTEGER affinity of the [amount] column: a REAL that is a whole
    number strictly between the least and the greatest 64-bit integer is
    stored as that INTEGER, any other REAL as it is.  The result is the
    number read back, [None] for a NULL, which the column does not take. *)
Definition integer_affinity (v : value) : option number :=
  match v with
  | Integer z => Some (PyInt z)
  | Real f =>
      match float_integral f with
      | Some z =>
          if (INT64_MIN <? z) && (z <? INT64_MAX) then Some (PyInt z)
          else Some (PyFloat f)
      | None => Some (PyFloat f)
      end
  | _ => None
  end.

Definition MAX_ROWID : Z := INT64_MAX.

(** The search for a rowid among random candidates: candidate number [i]
    is made from the [i]-th 64-bit value of the random source, and the
    search gives up after [cnt] candidates that are all in use. *)
Fixpoint random_rowid (random : nat -> Z) (ids : list Z) (cnt i : nat)
  : option Z :=
  match cnt with
  | O => None
  | S cnt' =>
      let v := Z.land (random i) (Z.shiftr MAX_ROWID 1) + 1 in
      if existsb (Z.eqb v) ids then random_rowid random ids cnt' (S i)
      else Some v
  end.

(** The rowid of a new row: 1 in an empty table, else one more than the
    greatest in use; when that is the greatest 64-bit integer, the first
    of at most 100 random candidates that is not in use, and [None] when
    all of them are.  A table filled by [add_expense] alone has the ids
    1, 2, 3, ... and does not get to the random search. *)
Definition new_rowid (random : nat -> Z) (conn : list Row) : option Z :=
  match map id conn with
  | [] => Some 1
  | i :: ids =>
      let greatest := fold_right Z.max i ids in
      if greatest <? MAX_ROWID then Some (greatest + 1)
      else random_rowid random (i :: ids) 100 0
  end.

(** The table keeps its rows in rowid order. *)
Fixpoint insert_row (r : Row) (conn : list Row) : list Row :=
  match conn with
  | [] => [r]
  | x :: conn' =>
      if id r <? id x then r :: conn else x :: insert_row r conn'
  end.

End Sqlite.

(** The values [list_expenses] passes as parameters, and how the [sqlite3]
    module hands them to SQLite: [None] as NULL, a [str] as text, a [date]
    as its ISO text. *)
Inductive param := PNone | PStr (s : string) | PDate (d : date).

Definition adapt (p : param) : Sqlite.value :=
  match p with
  | PNone => Sqlite.Null
  | PStr s => Sqlite.Text s
  | PDate d => Sqlite.Text (isoformat d)
  end.

Definition param_of_date (d : option date) : param :=
  match d with
  | Some d => PDate d
  | None => PNone
  end.

(* ================================================================== *)
(** * The record store functions of [main.py] *)

(** What the [sqlite3] module binds for a number: an [int] has to fit 64
    bits, a [float] is bound as it is, a NaN as NULL. *)
Definition bind_number (x : number) : result Sqlite.value :=
  match x with
  | PyInt z =>
      if (Sqlite.INT64_MIN <=? z) && (z <=? Sqlite.INT64_MAX)
      then Ret (Sqlite.Integer z)
      else Raise OverflowError
  | PyFloat f =>
      Ret (if PrimFloat.is_nan f then Sqlite.Null else Sqlite.Real f)
  end.

(** [add_expense]: binds the four values and inserts the row.  It returns
    the new table with the rowid of the row; when it raises, nothing has
    been written.  SQLite takes the rowid first and fails with
    [SQLITE_FULL] when it finds none; then it checks [amount], [category]
    and [date], which are NOT NULL.  [random] is the random source of
    SQLite during the statement. *)
Definition add_expense (random : nat -> Z) (conn : list Sqlite.Row)
    (amount : number) (category desc : option string) (d : option date)
  : result (list Sqlite.Row * Z) :=
  a <- bind_number amount ;;
  match Sqlite.new_rowid random conn with
  | None => Raise OperationalError
  | Some rowid =>
      match Sqlite.integer_affinity a, category, d with
      | Some a', Some c, Some d' =>
          Ret (Sqlite.insert_row
                 (Sqlite.mkRow rowid a' c desc (isoformat d')) conn,
               rowid)
      | _, _, _ => Raise IntegrityError
      end
  end.

(** The statement text and the parameter list that [list_expenses] builds. *)
Definition list_expenses_query (category : string) (start end_ : option date)
    (desc : option string) : string * list param :=
  let args : list string := [] in
  let params : list param := [] in
  let '(args, params) :=
    match desc with
    | Some d => ((args ++ ["desc LIKE ?"])%list, (params ++ [PStr d])%list)
    | None => (args, params)
    end in
  let '(args, params) :=
    match end_ with
    | Some e =>
        ((args ++ ["DATE(date) BETWEEN ? AND ?"])%list,
         ((params ++ [param_of_date start]) ++ [PDate e])%list)
    | None =>
        match start with
        | Some s => ((args ++ ["DATE(date) = ?"])%list, (params ++ [PDate s])%list)
        | None => (args, params)
        end
    end in
  let '(args, params) :=
    if negb (category =? "all")%string
    then ((args ++ ["category LIKE ?"])%list, (params ++ [PStr category])%list)
    else (args, params) in
  let sql := "SELECT id, amount, category, desc, date FROM expenses" in
  let sql := if negb (Z.of_nat (List.length args) =? 0) then sql ++ " WHERE " else sql in
  let sql := fold_left (fun sql arg => sql ++ arg ++ " AND ") args sql in
  let sql :=
    if negb (Z.of_nat (List.length args) =? 0) then slice_to sql (len sql - 4)
    else sql in
  let sql := sql ++ " ORDER BY date DESC" in
  (sql, params).

(** [list_expenses] *)
Definition list_expenses (conn : list Sqlite.Row) (category : string)
    (start end_ : option date) (desc : option string)
  : result (list Sqlite.Row) :=
  let '(sql, params) := list_expenses_query category start end_ desc in
  Sqlite.execute conn sql (map adapt params).

(* ================================================================== *)
(** * Reporting *)

(** The loop [for row in rows: total += row['amount']]. *)
Fixpoint add_amounts (rows : list Sqlite.Row) (total : number) : result number :=
  match rows with
  | [] => Ret total
  | row :: rows' =>
      total <- py_add total (Sqlite.amount row) ;;
      add_amounts rows' total
  end.

(** [summarize_spending]; the result is the line it prints. *)
Definition summarize_spending (category : string) (start end_ : option date)
    (conn : list Sqlite.Row) : result string :=
  let total := PyInt 0 in
  rows <- list_expenses conn category start end_ None ;;
  total <- add_amounts rows total ;;
  let cat :=
    if negb (category =? "all")%string then "the " ++ category ++ " category"
    else "all categories" in
  daterange <-
    match start with
    | None => Ret EmptyString
    | Some s =>
        match end_ with
        | None =>
            ds <- convert_date_to_string s ;;
            Ret (" on " ++ ds)
        | Some e =>
            ds <- convert_date_to_string s ;;
            de <- convert_date_to_string e ;;
            Ret (" from " ++ ds ++ " to " ++ de)
        end
    end ;;
  Ret ("The total for " ++ cat ++ daterange ++ " is: " ++ str_number total).

(* ================================================================== *)
(** * Logging and viewing *)

(** [class Expense]: an amount, and a category, a date and a description
    that may each be [None]. *)
Record Expense := mkExpense {
  exp_amount : number;
  exp_category : option string;
  exp_date : option date;
  exp_desc : option string
}.

(** [log_expense]: the table after the insert; the rowid [add_expense]
    returns is dropped. *)
Definition log_expense (random : nat -> Z) (expense : Expense)
    (conn : list Sqlite.Row) : result (list Sqlite.Row) :=
  r <- add_expense random conn (exp_amount expense) (exp_category expense)
         (exp_desc expense) (exp_date expense) ;;
  Ret (fst r).






(* ================================================================== *)
(** * Definitions used to state the properties *)

(** [c] does not occur in [s]. *)
Fixpoint lacks (c : ascii) (s : string) : bool :=
  match s with
  | EmptyString => true
  | String c' s' => negb (Ascii.eqb c' c) && lacks c s'
  end.

(** Number of occurrences of [c] in [s]. *)
Fixpoint occurrences (c : ascii) (s : string) : nat :=
  match s with
  | EmptyString => O
  | String c' s' => (if Ascii.eqb c' c then 1 else 0)%nat + occurrences c s'
  end.

Fixpoint all_digits (s : string) : bool :=
  match s with
  | EmptyString => true
  | String c s' => is_digit c && all_digits s'
  end.

(** The number a digit string denotes, continuing from [acc]. *)
Fixpoint digits_value (acc : Z) (s : string) : Z :=
  match s with
  | EmptyString => acc
  | String c s' => digits_value (acc * 10 + digit_val c) s'
  end.

(** [fmt_0d w n] is exactly [w] digits that read back as [n]. *)
Definition fmt_ok (w : nat) (n : Z) : bool :=
  let s := fmt_0d w n in
  all_digits s && Nat.eqb (String.length s) w && (digits_value 0 s =? n).

(** [MM/DD/YYYY], the display form of a date. *)
Definition formatForDisplay (d : date) : string :=
  fmt_0d 2 (month d) ++ "/" ++ fmt_0d 2 (day d) ++ "/" ++ fmt_0d 4 (year d).

(** Whitespace-separated tokens, as the specification words the contract of
    the filter parser: maximal runs of non-whitespace characters. *)
Definition is_space (c : ascii) : bool :=
  let n := N_of_ascii c in ((9 <=? n)%N && (n <=? 13)%N) || (n =? 32)%N.

Fixpoint split_by (p : ascii -> bool) (s : string) : list string :=
  match s with
  | EmptyString => [EmptyString]
  | String c s' =>
      if p c then EmptyString :: split_by p s'
      else match split_by p s' with
           | w :: ws => String c w :: ws
           | [] => [String c EmptyString]
           end
  end.

Definition whitespace_tokens (s : string) : list string :=
  filter (fun t => negb (t =? EmptyString)%string) (split_by is_space s).

Definition tab : string := String (ascii_of_nat 9) EmptyString.

(** The [WHERE] conjuncts of [list_expenses] with their parameters bound. *)
Definition bounds (category : string) (start end_ : option date)
    (desc : option string) : list Sqlite.bound :=
  (match desc with
   | Some p => [Sqlite.BLike Sqlite.c_desc (Sqlite.Text p)]
   | None => []
   end
   ++ match end_ with
      | Some e =>
          [Sqlite.BDateBetween (adapt (param_of_date start))
             (Sqlite.Text (isoformat e))]
      | None =>
          match start with
          | Some s => [Sqlite.BDateIs (Sqlite.Text (isoformat s))]
          | None => []
          end
      end
   ++ (if (category =? "all")%string then []
       else [Sqlite.BLike Sqlite.c_category (Sqlite.Text category)]))%list.





Definition opt_valid (d : option date) : bool :=
  match d with
  | Some d => valid_date d
  | None => true
  end.


(** An amount stored as INTEGER, and its value. *)
Definition is_int (x : number) : bool :=
  match x with
  | PyInt _ => true
  | PyFloat _ => false
  end.

Definition int_of (x : number) : Z :=
  match x with
  | PyInt z => z
  | PyFloat _ => 0
  end.

Definition all_ints (rows : list Sqlite.Row) : bool :=
  forallb (fun r => is_int (Sqlite.amount r)) rows.

(** The sum of the amounts of rows that hold integers. *)
Definition sum_amounts (rows : list Sqlite.Row) : Z :=
  fold_right (fun r acc => int_of (Sqlite.amount r) + acc) 0 rows.

(** The exact value of a number in units of [2^-1074], of which every
    finite float is a whole multiple; [None] for an infinity or a NaN. *)
Definition exact (x : number) : option Z :=
  match x with
  | PyInt z => Some (z * 2 ^ 1074)
  | PyFloat f =>
      match FloatOps.Prim2SF f with
      | SpecFloat.S754_zero _ => Some 0
      | SpecFloat.S754_finite s m e =>
          Some ((if s then Zneg m else Zpos m) * 2 ^ (e + 1074))
      | _ => None
      end
  end.


(** The float [m * 2^e]. *)
Definition float_of (m : positive) (e : Z) : PrimFloat.float :=
  FloatOps.SF2Prim (SpecFloat.S754_finite false m e).

(** Two expenses of one day: 9007199254740992, typed as such and stored as
    INTEGER, and 1.5, stored as REAL. *)
Definition float_rows : list Sqlite.Row :=
  [Sqlite.mkRow 1 (PyInt 9007199254740992) "rent" None "2025-08-20";
   Sqlite.mkRow 2 (PyFloat (float_of 3 (-1))) "tea" None "2025-08-20"].

(** A [LIKE] pattern SQLite evaluates: at most 50000 bytes of UTF-8. *)
Definition pattern_ok (pat : string) : bool :=
  utf8_len pat <=? Sqlite.LIKE_PATTERN_LENGTH.

Definition opt_pattern_ok (pat : option string) : bool :=
  match pat with
  | Some p => pattern_ok p
  | None => true
  end.

(** A condition whose pattern SQLite refuses. *)
Definition too_complex (b : Sqlite.bound) : bool :=
  match b with
  | Sqlite.BLike _ pattern =>
      Sqlite.LIKE_PATTERN_LENGTH <? Sqlite.value_bytes pattern
  | _ => false
  end.

(** [r] makes every condition of [bs] true. *)
Definition satisfies (bs : list Sqlite.bound) (r : Sqlite.Row) : bool :=
  forallb (fun b => match Sqlite.eval r b with
                    | Ret (Some true) => true
                    | _ => false
                    end) bs.

(** A text of [n] letters [a]. *)
Fixpoint letters (n : nat) : string :=
  match n with
  | O => EmptyString
  | S n' => String "a" (letters n')
  end.

(** The clauses of a filter, in the order [list_expenses] appends them. *)
Definition clauses (category : string) (start end_ : option date)
    (desc : option string) : list string :=
  (match desc with Some _ => ["desc LIKE ?"] | None => [] end
   ++ match end_ with
      | Some _ => ["DATE(date) BETWEEN ? AND ?"]
      | None => match start with Some _ => ["DATE(date) = ?"] | None => [] end
      end
   ++ (if (category =? "all")%string then [] else ["category LIKE ?"]))%list.

(** [" AND ".join(args)] *)
Fixpoint join_and (args : list string) : string :=
  match args with
  | [] => EmptyString
  | [a] => a
  | a :: args' => a ++ " AND " ++ join_and args'
  end.

(** The parameters a filter binds, in placeholder order. *)
Definition filter_params (category : string) (start end_ : option date)
    (desc : option string) : list param :=
  (match desc with Some p => [PStr p] | None => [] end
   ++ match end_ with
      | Some e => [param_of_date start; PDate e]
      | None => match start with Some s => [PDate s] | None => [] end
      end
   ++ (if (category =? "all")%string then [] else [PStr category]))%list.

Definition sample_rows : list Sqlite.Row :=
  [Sqlite.mkRow 1 (PyInt 12) "food" (Some "lunch") "2025-08-20";
   Sqlite.mkRow 2 (PyInt 30) "Food" (Some "dinner") "2025-08-20";
   Sqlite.mkRow 3 (PyInt 7) "fuel" None "2025-08-21";
   Sqlite.mkRow 4 (PyInt 5) "food" None "2025-08-19"].

(** The zero-padding [convert_str_to_date] applies to its first two fields. *)
Definition pad2 (s : string) : string :=
  if len s <? 2 then "0" ++ s else s.

(** [str(n)] is digits only and pads to ["%02d" % n]. *)
Definition unpadded_ok (n : Z) : bool :=
  all_digits (str_int n) && negb (str_int n =? EmptyString)%string
  && (pad2 (str_int n) =? fmt_0d 2 n)%string.

(** [M/D/YYYY], month and day without padding. *)
Definition unpadded (d : date) : string :=
  str_int (month d) ++ "/" ++ str_int (day d) ++ "/" ++ fmt_0d 4 (year d).



(** The command text of a filter: category, start or ["all"], end if any. *)
Definition command_of (f : Filter) : string :=
  let '(category, start, end_) := f in
  category ++ " "
  ++ match start with
     | Some s => formatForDisplay s
     | None => "all"
     end
  ++ match end_ with
     | Some e => " " ++ formatForDisplay e
     | None => EmptyString
     end.


(** The category clause of a filter, asked of the category of a row. *)
Definition category_clause (category cat : string) : bool :=
  (category =? "all")%string || Sqlite.like category cat.


(** The number the [amount] column holds for an amount handed to
    [add_expense], [None] when the insert is refused. *)
Definition stored_amount (amount : number) : option number :=
  match bind_number amount with
  | Ret v => Sqlite.integer_affinity v
  | Raise _ => None
  end.

(** [r] is the row written for [expense], its rowid apart. *)
Definition holds (r : Sqlite.Row) (expense : Expense) : Prop :=
  stored_amount (exp_amount expense) = Some (Sqlite.amount r)
  /\ exp_category expense = Some (Sqlite.category r)
  /\ exp_desc expense = Sqlite.desc r
  /\ option_map isoformat (exp_date expense) = Some (Sqlite.date r).

(** One side of [H] is an equation between [None] and itself, the other
    between [Some _] and [None]. *)
Ltac absurd_shape H :=
  solve [ exfalso; destruct H as [H1 H2];
          first [ discriminate (H1 eq_refl) | discriminate (H2 eq_refl) ] ].

(* ================================================================== *)
(** * Properties of the Python runtime functions *)

Lemma split_not_nil sep s : split sep s <> [].
Proof.
  destruct s as [|c s]; simpl; [discriminate|].
  destruct (Ascii.eqb c sep); [discriminate|].
  destruct (split sep s); discriminate.
Qed.

Lemma split_length sep s :
  List.length (split sep s) = S (occurrences sep s).
Proof.
  induction s as [|c s IH]; simpl; [reflexivity|].
  destruct (Ascii.eqb c sep); simpl; [now rewrite IH|].
  destruct (split sep s) as [|w ws] eqn:E; [now apply split_not_nil in E|].
  exact IH.
Qed.

Lemma split_lacks sep s : lacks sep s = true -> split sep s = [s].
Proof.
  induction s as [|c s IH]; simpl; [reflexivity|].
  destruct (Ascii.eqb c sep); simpl; [discriminate|].
  intros H. now rewrite (IH H).
Qed.

Lemma split_app sep a b :
  lacks sep a = true ->
  split sep (a ++ String sep b) = a :: split sep b.
Proof.
  induction a as [|c a IH]; simpl.
  - intros _. now rewrite Ascii.eqb_refl.
  - destruct (Ascii.eqb c sep); simpl; [discriminate|].
    intros H. now rewrite (IH H).
Qed.

Lemma length_app (a b : string) :
  String.length (a ++ b) = (String.length a + String.length b)%nat.
Proof. induction a; simpl; congruence. Qed.

Lemma app_empty_r (a : string) : a ++ EmptyString = a.
Proof. induction a; simpl; congruence. Qed.

Lemma app_assoc (a b c : string) : (a ++ b) ++ c = a ++ b ++ c.
Proof. induction a; simpl; congruence. Qed.

(** ** Digits *)

Lemma digit_not_dash c : is_digit c = true -> Ascii.eqb c "-" = false.
Proof. destruct c as [[] [] [] [] [] [] [] []]; vm_compute; congruence. Qed.

Lemma digit_not_slash c : is_digit c = true -> Ascii.eqb c "/" = false.
Proof. destruct c as [[] [] [] [] [] [] [] []]; vm_compute; congruence. Qed.

Lemma digit_not_W c : is_digit c = true -> Ascii.eqb c "W" = false.
Proof. destruct c as [[] [] [] [] [] [] [] []]; vm_compute; congruence. Qed.

Lemma digit_is_ascii c : is_digit c = true -> (N_of_ascii c <? 128)%N = true.
Proof. destruct c as [[] [] [] [] [] [] [] []]; vm_compute; congruence. Qed.

Lemma all_digits_lacks c s :
  (forall d, is_digit d = true -> Ascii.eqb d c = false) ->
  all_digits s = true -> lacks c s = true.
Proof.
  intros Hc. induction s as [|d s IH]; simpl; [reflexivity|].
  intros H. apply andb_prop in H as [Hd Hs].
  now rewrite (Hc d Hd), (IH Hs).
Qed.

Lemma all_digits_utf8_len s :
  all_digits s = true -> utf8_len s = Z.of_nat (String.length s).
Proof.
  induction s as [|d s IH]; [reflexivity|].
  intros H. simpl in H. apply andb_prop in H as [Hd Hs].
  cbn [utf8_len String.length]. rewrite (digit_is_ascii d Hd), (IH Hs). lia.
Qed.

Lemma all_digits_app a b :
  all_digits (a ++ b) = all_digits a && all_digits b.
Proof.
  induction a as [|c a IH]; simpl; [reflexivity|].
  now rewrite IH, andb_assoc.
Qed.

Lemma parse_digits_app s acc rest :
  all_digits s = true ->
  parse_digits (String.length s) acc (s ++ rest) = Some (digits_value acc s, rest).
Proof.
  revert acc. induction s as [|d s IH]; intros acc H; [reflexivity|].
  simpl in H. apply andb_prop in H as [Hd Hs].
  simpl. rewrite Hd. now apply IH.
Qed.

Lemma starts_with_digits c s rest :
  (forall d, is_digit d = true -> Ascii.eqb d c = false) ->
  all_digits s = true -> s <> EmptyString ->
  starts_with c (s ++ rest) = false.
Proof.
  intros Hc H Hne. destruct s as [|d s]; [congruence|].
  simpl in *. apply andb_prop in H as [Hd _]. now apply Hc.
Qed.

(** Every number of [lo..lo+n-1] passes [f]. *)
Lemma range_check (f : Z -> bool) (lo : Z) (n : nat) :
  forallb f (map (fun i => lo + Z.of_nat i) (seq 0 n)) = true ->
  forall x, lo <= x < lo + Z.of_nat n -> f x = true.
Proof.
  intros H x Hx. rewrite forallb_forall in H. apply H.
  apply in_map_iff. exists (Z.to_nat (x - lo)). split; [lia|].
  apply in_seq. lia.
Qed.

Lemma fmt_0d_4 n : 0 <= n <= 9999 -> fmt_ok 4 n = true.
Proof.
  intros H. apply (range_check (fmt_ok 4) 0 (Z.to_nat 10000)); [now vm_compute | lia].
Qed.

Lemma fmt_0d_2 n : 0 <= n <= 99 -> fmt_ok 2 n = true.
Proof.
  intros H. apply (range_check (fmt_ok 2) 0 (Z.to_nat 100)); [now vm_compute | lia].
Qed.

Lemma fmt_ok_inv w n :
  fmt_ok w n = true ->
  all_digits (fmt_0d w n) = true
  /\ String.length (fmt_0d w n) = w
  /\ digits_value 0 (fmt_0d w n) = n.
Proof.
  unfold fmt_ok. intros H.
  apply andb_prop in H as [H H3]. apply andb_prop in H as [H1 H2].
  apply Nat.eqb_eq in H2. apply Z.eqb_eq in H3. auto.
Qed.

(* ================================================================== *)
(** * The date codec *)

Lemma days_in_month_le y m : days_in_month y m <= 31.
Proof.
  unfold days_in_month. destruct ((m =? 2) && is_leap y); [lia|].
  unfold _days_in_month.
  destruct (Z.to_nat m) as [|[|[|[|[|[|[|[|[|[|[|[|[|[|k]]]]]]]]]]]]]];
    simpl; lia.
Qed.

Lemma valid_ymd_range y m d :
  valid_ymd y m d = true ->
  1 <= y <= 9999 /\ 1 <= m <= 12 /\ 1 <= d <= 31.
Proof.
  unfold valid_ymd, MINYEAR, MAXYEAR. intros H.
  repeat (apply andb_prop in H as [H ?]).
  pose proof (days_in_month_le y m). lia.
Qed.

(** The three fields of a valid date, as [str(d)] prints them. *)
Lemma fields_of_valid d :
  valid_date d = true ->
  fmt_ok 4 (year d) = true /\ fmt_ok 2 (month d) = true
  /\ fmt_ok 2 (day d) = true.
Proof.
  intros H. apply valid_ymd_range in H as (Hy & Hm & Hd).
  repeat split; [apply fmt_0d_4 | apply fmt_0d_2 | apply fmt_0d_2]; lia.
Qed.

Lemma convert_date_to_string_valid d :
  valid_date d = true ->
  convert_date_to_string d = Ret (formatForDisplay d).
Proof.
  intros H. destruct (fields_of_valid d H) as (Hy & Hm & Hd).
  apply fmt_ok_inv in Hy as (Yd & _ & _).
  apply fmt_ok_inv in Hm as (Md & _ & _).
  apply fmt_ok_inv in Hd as (Dd & _ & _).
  unfold convert_date_to_string, isoformat, formatForDisplay.
  cbn [append].
  rewrite split_app by (apply (all_digits_lacks _ _ digit_not_dash), Yd).
  rewrite split_app by (apply (all_digits_lacks _ _ digit_not_dash), Md).
  rewrite split_lacks by (apply (all_digits_lacks _ _ digit_not_dash), Dd).
  reflexivity.
Qed.

Lemma convert_str_to_date_display d :
  valid_date d = true ->
  convert_str_to_date (formatForDisplay d) = Ret (Some d).
Proof.
  intros H. destruct (fields_of_valid d H) as (Hy & Hm & Hd).
  apply fmt_ok_inv in Hy as (Yd & Yl & Yv).
  apply fmt_ok_inv in Hm as (Md & Ml & Mv).
  apply fmt_ok_inv in Hd as (Dd & Dl & Dv).
  unfold convert_str_to_date, formatForDisplay.
  set (Y := fmt_0d 4 (year d)) in *.
  set (M := fmt_0d 2 (month d)) in *.
  set (D := fmt_0d 2 (day d)) in *.
  cbn [append].
  rewrite split_app by (apply (all_digits_lacks _ _ digit_not_slash), Md).
  rewrite split_app by (apply (all_digits_lacks _ _ digit_not_slash), Dd).
  rewrite split_lacks by (apply (all_digits_lacks _ _ digit_not_slash), Yd).
  cbn [getitem nth_error bind]. unfold len. rewrite Ml.
  cbn [Z.of_nat Z.ltb Z.compare Pos.of_succ_nat Pos.succ Pos.compare Pos.compare_cont bind getitem nth_error].
  rewrite Dl.
  cbn [Z.of_nat Z.ltb Z.compare Pos.of_succ_nat Pos.succ Pos.compare Pos.compare_cont bind getitem nth_error].
  assert (HM : M <> EmptyString) by (intros E; rewrite E in Ml; discriminate).
  assert (HD : D <> EmptyString) by (intros E; rewrite E in Dl; discriminate).
  assert (Hlen : utf8_len (Y ++ M ++ D) = 8).
  { rewrite all_digits_utf8_len
      by (rewrite !all_digits_app, Yd, Md, Dd; reflexivity).
    rewrite !length_app, Yl, Ml, Dl. reflexivity. }
  unfold fromisoformat. rewrite Hlen. cbn [Z.eqb orb Pos.eqb].
  unfold parse_isoformat_date.
  rewrite <- Yl at 1. rewrite (parse_digits_app Y 0 (M ++ D) Yd), Yv.
  rewrite (starts_with_digits "-" M D digit_not_dash Md HM).
  rewrite (starts_with_digits "W" M D digit_not_W Md HM).
  rewrite <- Ml at 1. rewrite (parse_digits_app M 0 D Md), Mv.
  cbn [andb].
  rewrite <- (app_empty_r D), <- Dl at 1.
  rewrite (parse_digits_app D 0 EmptyString Dd), Dv.
  unfold new_date. unfold valid_date in H. rewrite H.
  destruct d; reflexivity.
Qed.

(** C5.  Round trip: for every valid calendar date [d], rendering it with
    [convert_date_to_string] and parsing the text with [convert_str_to_date]
    returns [d]. *)
Theorem date_roundtrip (d : date) :
  valid_date d = true ->
  exists s, convert_date_to_string d = Ret s
            /\ convert_str_to_date s = Ret (Some d).
Proof.
  intros H. exists (formatForDisplay d). split.
  - now apply convert_date_to_string_valid.
  - now apply convert_str_to_date_display.
Qed.

Lemma date_roundtrip_witness :
  valid_date (mkdate 2024 2 29) = true
  /\ exists s, convert_date_to_string (mkdate 2024 2 29) = Ret s
               /\ convert_str_to_date s = Ret (Some (mkdate 2024 2 29)).
Proof.
  split; [reflexivity | apply date_roundtrip; reflexivity].
Defined.

Lemma convert_str_to_date_few_fields s :
  (List.length (split "/" s) < 3)%nat -> convert_str_to_date s = Ret None.
Proof.
  unfold convert_str_to_date.
  destruct (split "/" s) as [|a [|b [|c l]]]; cbn [List.length]; intros H.
  - reflexivity.
  - cbn [getitem nth_error bind]. destruct (len a <? 2); reflexivity.
  - cbn [getitem nth_error bind].
    destruct (len a <? 2); cbn [setitem getitem nth_error bind];
      destruct (len b <? 2); reflexivity.
  - lia.
Qed.

Lemma fromisoformat_raises_only_ValueError s :
  (exists d, fromisoformat s = Ret d /\ valid_date d = true)
  \/ fromisoformat s = Raise ValueError.
Proof.
  unfold fromisoformat.
  destruct (_ || _); [|now right].
  destruct (parse_isoformat_date s) as [[[y m] d]|]; [|now right].
  unfold new_date. destruct (valid_ymd y m d) eqn:E; [|now right].
  left. eexists. split; [reflexivity | exact E].
Qed.

(** With three fields or more the function never answers [None]: it
    returns a valid date or lets the [ValueError] through. *)
Lemma convert_str_to_date_many_fields s :
  (3 <= List.length (split "/" s))%nat ->
  (exists d, convert_str_to_date s = Ret (Some d) /\ valid_date d = true)
  \/ convert_str_to_date s = Raise ValueError.
Proof.
  unfold convert_str_to_date.
  destruct (split "/" s) as [|a [|b [|c l]]]; cbn [List.length];
    intros H; try lia.
  cbn [getitem nth_error bind].
  destruct (len a <? 2); cbn [setitem getitem nth_error bind];
    destruct (len b <? 2); cbn [setitem getitem nth_error bind];
    match goal with
    | |- context [fromisoformat ?x] =>
        destruct (fromisoformat_raises_only_ValueError x) as [(d & -> & V)| ->]
    end;
    cbn [bind try_except exn_eqb]; eauto.
Qed.

Lemma convert_str_to_date_none_iff s :
  convert_str_to_date s = Ret None <-> (List.length (split "/" s) < 3)%nat.
Proof.
  split; [|apply convert_str_to_date_few_fields].
  intros H. destruct (Nat.lt_ge_cases (List.length (split "/" s)) 3) as [L|L];
    [exact L|].
  destruct (convert_str_to_date_many_fields s L) as [(d & E & _)|E];
    rewrite E in H; discriminate.
Qed.

(** C2.  The text ["13/32/2025"] has three fields that do not form a
    calendar date; [convert_str_to_date] does not return [None] for it, the
    [ValueError] of [date.fromisoformat] leaves the function. *)
Theorem convert_str_to_date_raises :
  convert_str_to_date "13/32/2025" = Raise ValueError.
Proof. reflexivity. Qed.

(* ================================================================== *)
(** * The filter parser *)

Lemma parse_pass_break response c s e :
  parse_pass response = Break c s e ->
  c = nth 0 (split " " response) EmptyString
  /\ (s = None <-> nth 1 (split " " response) EmptyString = "all").
Proof.
  unfold parse_pass.
  destruct (_ || _); [discriminate|].
  destruct (nth 1 (split " " response) EmptyString =? "all")%string eqn:E1; cbn [negb].
  - apply String.eqb_eq in E1.
    destruct (2 <? _).
    + destruct (convert_str_to_date _) as [[x|]|]; try discriminate.
      intros [= <- <- <-]. tauto.
    + intros [= <- <- <-]. tauto.
  - apply String.eqb_neq in E1.
    destruct (convert_str_to_date (nth 1 _ _)) as [[x|]|]; try discriminate.
    destruct (2 <? _).
    + destruct (convert_str_to_date _) as [[y|]|]; try discriminate.
      intros [= <- <- <-]. split; [reflexivity|]. split; [discriminate|tauto].
    + intros [= <- <- <-]. split; [reflexivity|]. split; [discriminate|tauto].
Qed.

Lemma parse_response_loop_some response pending printed f :
  fst (parse_response_loop response pending printed) = Ret (Some f) ->
  parse_pass response = Break (fst (fst f)) (snd (fst f)) (snd f).
Proof.
  revert printed. induction pending as [|w pending IH]; intros printed;
    cbn [parse_response_loop]; destruct (parse_pass response) eqn:E;
    cbn [fst]; try discriminate.
  - intros [= <-]. reflexivity.
  - intros [= <-]. reflexivity.
  - destruct (w =? "4")%string; [discriminate|]. intros H.
    specialize (IH _ H). discriminate.
Qed.

(** A response that is re-prompted for once is re-prompted for ever: the
    loop ends by the sentinel or by the end of the input, never with a
    filter. *)
Lemma parse_response_loop_reprompt response msg pending printed :
  parse_pass response = Reprompt msg ->
  fst (parse_response_loop response pending printed) = Ret None
  \/ fst (parse_response_loop response pending printed) = Raise EOFError.
Proof.
  intros E. revert printed.
  induction pending as [|w pending IH]; intros printed;
    cbn [parse_response_loop]; rewrite E.
  - now right.
  - destruct (w =? "4")%string; [now left | apply IH].
Qed.

(** C3, as stated, fails: a third token after ["all"] is parsed into [end]
    while [start] stays [None]. *)
Lemma parse_response_end_without_start :
  ~ (forall response t c s e,
        fst (parse_response response t) = Ret (Some (c, s, e)) ->
        e <> None -> s <> None).
Proof.
  intros H.
  apply (H "food all 8/21/2025" (mktty [] []) "food" None
           (Some (mkdate 2025 8 21))); [reflexivity | discriminate | reflexivity].
Qed.

(** C3, amended.  In every filter [parse_response] returns, [start] is
    [None] exactly when the second space-separated token of the response is
    the literal ["all"]; hence a non-null [end] comes with a non-null [start]
    unless that token is ["all"]. *)
Theorem parse_response_start_null_iff_all response t c s e :
  fst (parse_response response t) = Ret (Some (c, s, e)) ->
  (s = None <-> nth 1 (split " " response) EmptyString = "all")
  /\ (e <> None -> s <> None \/ nth 1 (split " " response) EmptyString = "all").
Proof.
  intros H. apply parse_response_loop_some in H. cbn [fst snd] in H.
  apply parse_pass_break in H as [_ H]. split; [exact H|].
  intros _. destruct s; [left; discriminate | right; now apply H].
Qed.

Lemma parse_response_start_null_iff_all_witness :
  (@None date = None <-> nth 1 (split " " "food all 8/21/2025") EmptyString = "all")
  /\ (Some (mkdate 2025 8 21) <> None ->
      @None date <> None \/ nth 1 (split " " "food all 8/21/2025") EmptyString = "all").
Proof.
  apply (parse_response_start_null_iff_all
           "food all 8/21/2025" (mktty [] []) "food").
  reflexivity.
Defined.

(** C4.  The response ["onlyone"] is re-prompted for; the line ["food all"]
    typed at the re-prompt is a well-formed command on its own, yet it is
    not parsed: the loop splits the original response again, asks again, and
    the sentinel ["4"] typed next ends it with [None]. *)
Theorem parse_response_ignores_reprompt_input :
  fst (parse_response "food all" (mktty ["4"] [])) = Ret (Some ("food", None, None))
  /\ parse_response "onlyone" (mktty ["food all"; "4"] [])
     = (Ret None, mktty [] [msg_format; msg_format])
  /\ fst (parse_response "onlyone" (mktty ["food all"] [])) = Raise EOFError.
Proof. repeat split. Qed.

Lemma msg_format_not_msg_date : msg_date <> msg_format.
Proof. discriminate. Qed.

(** C6, as stated, fails: ["a  b  c"] has three whitespace-separated tokens
    and is rejected for its token count, and a tab between two tokens does
    not separate them. *)
Lemma parse_pass_not_whitespace_tokens :
  ~ (forall response,
        parse_pass response = Reprompt msg_format
        <-> ~ (List.length (whitespace_tokens response) = 2%nat
               \/ List.length (whitespace_tokens response) = 3%nat)).
Proof.
  intros H. destruct (H "a  b  c") as [H1 _].
  apply H1; [reflexivity | right; reflexivity].
Qed.

(** C6, amended.  [parse_response] splits the response at every single
    space character, so it has one token more than the response has spaces
    (a run of spaces gives empty tokens, other whitespace does not
    separate), and takes the token-count re-prompt exactly when that number
    is not 2 or 3; ["a b c d"] and ["onlyone"] both take it. *)
Theorem parse_pass_token_count :
  (forall response,
      List.length (split " " response) = S (occurrences " " response)
      /\ (parse_pass response = Reprompt msg_format
          <-> ~ (List.length (split " " response) = 2%nat
                 \/ List.length (split " " response) = 3%nat)))
  /\ parse_pass "a b c d" = Reprompt msg_format
  /\ parse_pass "onlyone" = Reprompt msg_format
  /\ List.length (split " " "food  all") = 3%nat
  /\ List.length (split " " ("food" ++ tab ++ "all")) = 1%nat.
Proof.
  split; [|repeat split].
  intros response. split; [apply split_length|].
  unfold parse_pass.
  destruct ((3 <? _) || (_ <? 2)) eqn:E.
  - split; [intros _|reflexivity].
    apply orb_prop in E as [E|E]; [apply Z.ltb_lt in E | apply Z.ltb_lt in E]; lia.
  - apply orb_false_elim in E as [E1 E2].
    apply Z.ltb_ge in E1, E2.
    split; [|intros H; exfalso; apply H; lia].
    intros H. exfalso. revert H.
    destruct (negb _);
      repeat match goal with
             | |- context [match convert_str_to_date ?x with _ => _ end] =>
                 destruct (convert_str_to_date x) as [[?|]|]
             | |- context [if ?b then _ else _] => destruct b
             end;
      intros H; inversion H; now apply msg_format_not_msg_date.
Qed.

(* ================================================================== *)
(** * The query builder and the record store *)

Lemma list_expenses_eq conn category start end_ desc :
  list_expenses conn category start end_ desc
  = (rows <- Sqlite.select (bounds category start end_ desc) conn ;;
     Ret (Sqlite.order_by_date_desc rows)).
Proof.
  unfold list_expenses, list_expenses_query, bounds.
  destruct desc, end_, start, (category =? "all")%string; reflexivity.
Qed.

Lemma list_expenses_query_params category start end_ desc :
  snd (list_expenses_query category start end_ desc)
  = filter_params category start end_ desc.
Proof.
  unfold list_expenses_query, filter_params.
  destruct desc, end_, start, (category =? "all")%string; reflexivity.
Qed.

(** ** The dates in the table *)

Lemma isoformat_is_iso_date d :
  valid_date d = true -> Sqlite.is_iso_date (isoformat d) = true.
Proof.
  intros H. destruct (fields_of_valid d H) as (Hy & Hm & Hd).
  apply fmt_ok_inv in Hy as (Yd & Yl & Yv).
  apply fmt_ok_inv in Hm as (Md & Ml & Mv).
  apply fmt_ok_inv in Hd as (Dd & Dl & Dv).
  unfold Sqlite.is_iso_date, isoformat. cbn [append].
  rewrite <- Yl at 1. rewrite (parse_digits_app _ 0 _ Yd).
  cbn [starts_with advance andb]. rewrite Ascii.eqb_refl. cbn [andb].
  rewrite <- Ml at 1. rewrite (parse_digits_app _ 0 _ Md).
  cbn [starts_with advance andb]. rewrite Ascii.eqb_refl. cbn [andb].
  rewrite <- (app_empty_r (fmt_0d 2 (day d))), <- Dl at 1.
  rewrite (parse_digits_app _ 0 EmptyString Dd), Yv, Mv, Dv. exact H.
Qed.

Lemma insert_row_perm r conn :
  Permutation (Sqlite.insert_row r conn) (r :: conn).
Proof.
  induction conn as [|x conn IH]; cbn [Sqlite.insert_row]; [reflexivity|].
  destruct (Sqlite.id r <? Sqlite.id x); [reflexivity|].
  rewrite IH. apply perm_swap.
Qed.


Lemma add_expense_ret random conn amount category desc d conn' rowid :
  add_expense random conn amount category desc d = Ret (conn', rowid) ->
  exists a c d',
    stored_amount amount = Some a /\ category = Some c /\ d = Some d'
    /\ Sqlite.new_rowid random conn = Some rowid
    /\ conn' = Sqlite.insert_row
                 (Sqlite.mkRow rowid a c desc (isoformat d')) conn.
Proof.
  unfold add_expense, stored_amount.
  destruct (bind_number amount) as [v|e]; cbn [bind]; [|discriminate].
  destruct (Sqlite.new_rowid random conn) as [i|]; [|discriminate].
  destruct (Sqlite.integer_affinity v) as [a|]; [|discriminate].
  destruct category as [c|]; [|discriminate].
  destruct d as [d'|]; [|discriminate].
  intros [= <- <-]. exists a, c, d'. repeat split.
Qed.



(** ** Ordering *)

Lemma insert_desc_perm r l : Permutation (Sqlite.insert_desc r l) (r :: l).
Proof.
  induction l as [|x l IH]; simpl; [reflexivity|].
  destruct (String.ltb _ _); [|reflexivity].
  rewrite IH. apply perm_swap.
Qed.

Lemma order_by_date_desc_perm l : Permutation (Sqlite.order_by_date_desc l) l.
Proof.
  induction l as [|r l IH]; simpl; [reflexivity|].
  rewrite insert_desc_perm. now constructor.
Qed.

(** ** The [WHERE] clause *)

Lemma Ret_inj {A} (a b : A) : Ret a = Ret b <-> a = b.
Proof. split; [now intros [= ->] | now intros ->]. Qed.

Lemma pattern_ok_too_complex c p :
  too_complex (Sqlite.BLike c (Sqlite.Text p)) = negb (pattern_ok p).
Proof.
  unfold too_complex, pattern_ok. cbn [Sqlite.value_bytes Sqlite.text_of].
  apply Z.ltb_antisym.
Qed.

Lemma eval_raise r b e :
  Sqlite.eval r b = Raise e -> e = OperationalError /\ too_complex b = true.
Proof.
  destruct b as [c p| |]; cbn [Sqlite.eval too_complex]; try discriminate.
  unfold Sqlite.like3. destruct (_ <? _); [|discriminate].
  now intros [= <-].
Qed.

Lemma eval_ret r b :
  too_complex b = false -> exists v, Sqlite.eval r b = Ret v.
Proof.
  destruct b as [c p| |]; cbn [Sqlite.eval too_complex]; intros H;
    try (eexists; reflexivity).
  unfold Sqlite.like3. rewrite H. eexists; reflexivity.
Qed.

Lemma eval_too_complex r b :
  too_complex b = true -> Sqlite.eval r b = Raise OperationalError.
Proof.
  destruct b as [c p| |]; cbn [Sqlite.eval too_complex]; try discriminate.
  intros H. unfold Sqlite.like3. now rewrite H.
Qed.

Lemma satisfies_iff bs r :
  satisfies bs r = true
  <-> Forall (fun b => Sqlite.eval r b = Ret (Some true)) bs.
Proof.
  unfold satisfies. rewrite forallb_forall, Forall_forall.
  split; intros H b Hb; specialize (H b Hb).
  - now destruct (Sqlite.eval r b) as [[[]|]|].
  - now rewrite H.
Qed.

Lemma where_ret bs r k :
  Sqlite.where_ bs r = Ret k -> k = satisfies bs r.
Proof.
  induction bs as [|b bs IH]; cbn [Sqlite.where_ satisfies forallb].
  - now intros [= <-].
  - destruct (Sqlite.eval r b) as [[[]|]|]; cbn [bind andb];
      try discriminate; try (now intros [= <-]).
    exact IH.
Qed.

Lemma where_raise bs r e :
  Sqlite.where_ bs r = Raise e ->
  e = OperationalError /\ existsb too_complex bs = true.
Proof.
  induction bs as [|b bs IH]; cbn [Sqlite.where_ existsb]; [discriminate|].
  destruct (Sqlite.eval r b) as [[[]|]|e'] eqn:E; cbn [bind];
    try discriminate.
  - intros H. destruct (IH H) as [-> ->]. now rewrite orb_true_r.
  - intros [= <-]. destruct (eval_raise _ _ _ E) as [-> ->]. auto.
Qed.

Lemma where_ok bs r :
  existsb too_complex bs = false ->
  Sqlite.where_ bs r = Ret (satisfies bs r).
Proof.
  intros H. destruct (Sqlite.where_ bs r) as [k|e] eqn:E.
  - now rewrite (where_ret _ _ _ E).
  - apply where_raise in E as [_ E]. congruence.
Qed.

Lemma where_iff bs r :
  Sqlite.where_ bs r = Ret true
  <-> Forall (fun b => Sqlite.eval r b = Ret (Some true)) bs.
Proof.
  rewrite <- satisfies_iff. split.
  - intros H. now apply where_ret in H.
  - induction bs as [|b bs IH]; [reflexivity|].
    cbn [satisfies forallb Sqlite.where_]. fold (satisfies bs r).
    destruct (Sqlite.eval r b) as [[[]|]|]; try discriminate.
    exact IH.
Qed.

Lemma where_app bs1 bs2 r :
  Sqlite.where_ (bs1 ++ bs2) r
  = (k <- Sqlite.where_ bs1 r ;; if k then Sqlite.where_ bs2 r else Ret false).
Proof.
  induction bs1 as [|b bs1 IH]; cbn [app Sqlite.where_ bind]; [reflexivity|].
  destruct (Sqlite.eval r b) as [[[]|]|]; cbn [bind]; auto.
Qed.

Lemma select_nil conn : Sqlite.select [] conn = Ret conn.
Proof.
  induction conn as [|r conn IH]; cbn [Sqlite.select Sqlite.where_ bind];
    [reflexivity|].
  now rewrite IH.
Qed.

Lemma select_ext bs1 bs2 conn :
  (forall r, Sqlite.where_ bs1 r = Sqlite.where_ bs2 r) ->
  Sqlite.select bs1 conn = Sqlite.select bs2 conn.
Proof.
  intros H. induction conn as [|r conn IH]; cbn [Sqlite.select];
    [reflexivity|].
  now rewrite H, IH.
Qed.

Lemma select_ret bs conn rows :
  Sqlite.select bs conn = Ret rows -> rows = filter (satisfies bs) conn.
Proof.
  revert rows. induction conn as [|r conn IH]; intros rows;
    cbn [Sqlite.select filter].
  - now intros [= <-].
  - destruct (Sqlite.where_ bs r) as [k|] eqn:E; cbn [bind]; [|discriminate].
    destruct (Sqlite.select bs conn) as [rows'|]; cbn [bind]; [|discriminate].
    intros [= <-]. rewrite <- (where_ret _ _ _ E), (IH rows' eq_refl).
    reflexivity.
Qed.

Lemma select_raise bs conn e :
  Sqlite.select bs conn = Raise e ->
  e = OperationalError /\ existsb too_complex bs = true.
Proof.
  induction conn as [|r conn IH]; cbn [Sqlite.select]; [discriminate|].
  destruct (Sqlite.where_ bs r) as [k|e'] eqn:E; cbn [bind].
  - destruct (Sqlite.select bs conn) as [rows'|e']; cbn [bind];
      [discriminate|].
    intros [= <-]. now apply IH.
  - intros [= <-]. now apply where_raise in E.
Qed.

Lemma select_ok bs conn :
  existsb too_complex bs = false ->
  Sqlite.select bs conn = Ret (filter (satisfies bs) conn).
Proof.
  intros H. destruct (Sqlite.select bs conn) as [rows|e] eqn:E.
  - now rewrite (select_ret _ _ _ E).
  - apply select_raise in E as [_ E]. congruence.
Qed.

(** A scan that meets a refused pattern first on its first row. *)
Lemma select_too_complex b bs r conn :
  too_complex b = true ->
  Sqlite.select (b :: bs) (r :: conn) = Raise OperationalError.
Proof.
  intros H. cbn [Sqlite.select Sqlite.where_].
  now rewrite (eval_too_complex r b H).
Qed.

(** A condition that no row makes true, behind conditions that raise no
    error, leaves no row. *)
Lemma select_never pre b post conn :
  existsb too_complex pre = false ->
  too_complex b = false ->
  (forall r, Sqlite.eval r b <> Ret (Some true)) ->
  Sqlite.select (pre ++ b :: post) conn = Ret [].
Proof.
  intros Hpre Hb Hnever.
  assert (W : forall r, Sqlite.where_ (pre ++ b :: post) r = Ret false).
  { intros r. rewrite where_app, (where_ok pre r Hpre). cbn [bind].
    destruct (satisfies pre r); [|reflexivity].
    cbn [Sqlite.where_]. destruct (eval_ret r b Hb) as [v E].
    specialize (Hnever r). rewrite E in *. cbn [bind].
    destruct v as [[]|]; congruence. }
  induction conn as [|r conn IH]; cbn [Sqlite.select]; [reflexivity|].
  now rewrite W, IH.
Qed.

Lemma bounds_too_complex category start end_ desc :
  existsb too_complex (bounds category start end_ desc)
  = negb (opt_pattern_ok desc)
    || negb (category =? "all")%string && negb (pattern_ok category).
Proof.
  unfold bounds. rewrite !existsb_app.
  assert (D : existsb too_complex
                match end_ with
                | Some e =>
                    [Sqlite.BDateBetween (adapt (param_of_date start))
                       (Sqlite.Text (isoformat e))]
                | None =>
                    match start with
                    | Some s => [Sqlite.BDateIs (Sqlite.Text (isoformat s))]
                    | None => []
                    end
                end = false)
    by (destruct end_, start; reflexivity).
  rewrite D. cbn [orb].
  destruct desc as [p|], (category =? "all")%string;
    cbn [existsb opt_pattern_ok negb andb orb];
    rewrite ?pattern_ok_too_complex, ?orb_false_r; reflexivity.
Qed.

Lemma bounds_ok category start end_ desc :
  pattern_ok category = true -> opt_pattern_ok desc = true ->
  existsb too_complex (bounds category start end_ desc) = false.
Proof.
  intros Hc Hd. rewrite bounds_too_complex, Hc, Hd.
  now rewrite andb_false_r.
Qed.

Lemma list_expenses_ret conn category start end_ desc rows :
  list_expenses conn category start end_ desc = Ret rows ->
  rows = Sqlite.order_by_date_desc
           (filter (satisfies (bounds category start end_ desc)) conn).
Proof.
  rewrite list_expenses_eq.
  destruct (Sqlite.select _ conn) as [rows'|] eqn:E; cbn [bind];
    [|discriminate].
  intros [= <-]. now rewrite (select_ret _ _ _ E).
Qed.

Lemma list_expenses_raise conn category start end_ desc e :
  list_expenses conn category start end_ desc = Raise e ->
  e = OperationalError
  /\ (pattern_ok category = false \/ opt_pattern_ok desc = false).
Proof.
  rewrite list_expenses_eq.
  destruct (Sqlite.select _ conn) as [rows'|e'] eqn:E; cbn [bind];
    [discriminate|].
  intros [= <-]. apply select_raise in E as [-> E]. split; [reflexivity|].
  rewrite bounds_too_complex in E.
  destruct (opt_pattern_ok desc); [|now right].
  destruct (pattern_ok category); [|now left].
  now rewrite andb_false_r in E.
Qed.

Lemma list_expenses_ok conn category start end_ desc :
  pattern_ok category = true -> opt_pattern_ok desc = true ->
  list_expenses conn category start end_ desc
  = Ret (Sqlite.order_by_date_desc
           (filter (satisfies (bounds category start end_ desc)) conn)).
Proof.
  intros Hc Hd.
  now rewrite list_expenses_eq, select_ok by now apply bounds_ok.
Qed.

Lemma in_list_expenses conn category start end_ desc rows :
  list_expenses conn category start end_ desc = Ret rows ->
  forall r,
    In r rows
    <-> In r conn
        /\ Forall (fun b => Sqlite.eval r b = Ret (Some true))
             (bounds category start end_ desc).
Proof.
  intros E r. apply list_expenses_ret in E. subst rows.
  rewrite <- satisfies_iff, <- filter_In. split; intros H.
  - eapply Permutation_in; [apply order_by_date_desc_perm | exact H].
  - eapply Permutation_in;
      [apply Permutation_sym, order_by_date_desc_perm | exact H].
Qed.

(** C7.  With category ["all"] and no dates [list_expenses] returns every
    row of the table, whatever the table holds: the statement has no
    [WHERE] clause and the result is the table reordered by date. *)
Theorem list_expenses_all (conn : list Sqlite.Row) :
  exists rows,
    list_expenses conn "all" None None None = Ret rows
    /\ rows = Sqlite.order_by_date_desc conn
    /\ Permutation rows conn
    /\ fst (list_expenses_query "all" None None None)
       = "SELECT id, amount, category, desc, date FROM expenses ORDER BY date DESC".
Proof.
  exists (Sqlite.order_by_date_desc conn). rewrite list_expenses_eq.
  cbn [bounds app String.eqb Ascii.eqb Bool.eqb].
  rewrite select_nil. repeat split. apply order_by_date_desc_perm.
Qed.

(** C8.  The statement text of [list_expenses] is a function of the shape
    of the filter alone (is the category ["all"], is [start] null, is [end]
    null, is [desc] given): two filters of one shape give the same text.  The
    category, the dates and the description pattern are in the parameter
    list, in placeholder order, and nowhere else. *)
Theorem sql_text_depends_on_shape
    (c1 c2 : string) (s1 s2 e1 e2 : option date) (d1 d2 : option string) :
  (c1 = "all" <-> c2 = "all") ->
  (s1 = None <-> s2 = None) ->
  (e1 = None <-> e2 = None) ->
  (d1 = None <-> d2 = None) ->
  fst (list_expenses_query c1 s1 e1 d1) = fst (list_expenses_query c2 s2 e2 d2)
  /\ snd (list_expenses_query c1 s1 e1 d1) = filter_params c1 s1 e1 d1
  /\ snd (list_expenses_query c2 s2 e2 d2) = filter_params c2 s2 e2 d2.
Proof.
  intros Hc Hs He Hd.
  split; [|split; apply list_expenses_query_params].
  assert (Ec : (c1 =? "all")%string = (c2 =? "all")%string).
  { destruct (String.eqb_spec c1 "all") as [E|E],
             (String.eqb_spec c2 "all") as [E'|E']; tauto. }
  unfold list_expenses_query. rewrite Ec.
  destruct (c2 =? "all")%string;
    destruct d1, d2; try absurd_shape Hd;
    destruct e1, e2; try absurd_shape He;
    destruct s1, s2; try absurd_shape Hs;
    reflexivity.
Qed.

Lemma sql_text_depends_on_shape_witness :
  fst (list_expenses_query "food" (Some (mkdate 2025 8 20)) None None)
  = fst (list_expenses_query "x' OR '1'='1" (Some (mkdate 1999 12 31)) None None)
  /\ snd (list_expenses_query "food" (Some (mkdate 2025 8 20)) None None)
     = filter_params "food" (Some (mkdate 2025 8 20)) None None
  /\ snd (list_expenses_query "x' OR '1'='1" (Some (mkdate 1999 12 31)) None None)
     = filter_params "x' OR '1'='1" (Some (mkdate 1999 12 31)) None None.
Proof.
  apply sql_text_depends_on_shape;
    split; intros H; try discriminate H; reflexivity.
Defined.

Lemma eval_between_null r hi :
  Sqlite.eval r (Sqlite.BDateBetween Sqlite.Null hi) <> Ret (Some true).
Proof.
  cbn [Sqlite.eval Sqlite.le3 Sqlite.compare option_map].
  destruct (Sqlite.le3 _ hi) as [[]|]; discriminate.
Qed.

(** The conditions of a filter: what the description pattern brings, the
    date clause, and what the category brings. *)
Lemma bounds_range category start end_ desc :
  exists b post,
    bounds category start (Some end_) desc
    = (match desc with
       | Some p => [Sqlite.BLike Sqlite.c_desc (Sqlite.Text p)]
       | None => []
       end ++ b :: post)%list
    /\ b = Sqlite.BDateBetween (adapt (param_of_date start))
             (Sqlite.Text (isoformat end_)).
Proof. eexists. eexists. split; reflexivity. Qed.

(** A range that no date is in: no row is returned; a description pattern
    that SQLite refuses is met first, on the first row. *)
Lemma list_expenses_empty_range conn category start e desc :
  (forall r, Sqlite.eval r (Sqlite.BDateBetween (adapt (param_of_date start))
                              (Sqlite.Text (isoformat e)))
             <> Ret (Some true)) ->
  list_expenses conn category start (Some e) desc
  = match desc, conn with
    | Some p, _ :: _ =>
        if pattern_ok p then Ret [] else Raise OperationalError
    | _, _ => Ret []
    end.
Proof.
  intros Hnever. rewrite list_expenses_eq.
  destruct (bounds_range category start e desc) as (b & post & -> & ->).
  destruct desc as [p|].
  - destruct (pattern_ok p) eqn:Hp.
    + rewrite select_never; auto.
      * now destruct conn.
      * cbn [existsb]. now rewrite pattern_ok_too_complex, Hp.
    + destruct conn as [|r conn]; [reflexivity|].
      cbn [app]. rewrite select_too_complex; [reflexivity|].
      now rewrite pattern_ok_too_complex, Hp.
  - rewrite select_never; auto.
Qed.

(** C10.  A filter with a null [start] and a non-null [end] selects
    nothing, whatever the table holds and whatever the category is: the
    lower bound of the [BETWEEN] is bound to NULL, no row makes the clause
    true, and the category clause, which comes after it, is not reached.
    The parser produces this shape from ["food all 8/21/2025"].  With a
    description pattern, which [list_expenses] tests before the dates and
    which no caller in [main.py] passes, the result is the same, except
    that a pattern of more than 50000 bytes is refused by SQLite as soon as
    the table has a row. *)
Theorem list_expenses_null_start_is_empty :
  (forall (conn : list Sqlite.Row) category e,
      list_expenses conn category None (Some e) None = Ret [])
  /\ (forall (conn : list Sqlite.Row) category e desc,
        list_expenses conn category None (Some e) desc
        = match desc, conn with
          | Some p, _ :: _ =>
              if pattern_ok p then Ret [] else Raise OperationalError
          | _, _ => Ret []
          end
        /\ In (Sqlite.BDateBetween Sqlite.Null (Sqlite.Text (isoformat e)))
              (bounds category None (Some e) desc))
  /\ (forall t,
        fst (parse_response "food all 8/21/2025" t)
        = Ret (Some ("food", None, Some (mkdate 2025 8 21)))).
Proof.
  split; [|split; [|intros [[|w p] q]; reflexivity]].
  - intros conn category e.
    rewrite (list_expenses_empty_range conn category None e None).
    + reflexivity.
    + intros r. apply eval_between_null.
  - intros conn category e desc. split.
    + apply list_expenses_empty_range. intros r. apply eval_between_null.
    + unfold bounds. apply in_or_app. right. apply in_or_app. left. now left.
Qed.

(** A category of 50001 letters: SQLite refuses it on the first row whose
    date passes, and is not asked about it when no date passes. *)
Example list_expenses_refused_pattern :
  list_expenses sample_rows (letters (Z.to_nat 50001)) None None None
  = Raise OperationalError
  /\ list_expenses sample_rows (letters (Z.to_nat 50000)) None None None
     = Ret []
  /\ list_expenses sample_rows (letters (Z.to_nat 50001)) None
       (Some (mkdate 2025 8 21)) None
     = Ret []
  /\ list_expenses sample_rows "all" None (Some (mkdate 2025 8 21))
       (Some (letters (Z.to_nat 50001)))
     = Raise OperationalError.
Proof. vm_compute. repeat split. Qed.

(** ** [LIKE] *)



(** ** The date clause *)

Lemma eq3_text a b :
  Sqlite.eq3 (Sqlite.Text a) (Sqlite.Text b) = Some true <-> a = b.
Proof.
  cbn [Sqlite.eq3 Sqlite.compare option_map].
  destruct (String.compare a b) eqn:E.
  - apply String.compare_eq_iff in E. tauto.
  - split; [discriminate|]. intros ->.
    pose proof (String.compare_antisym b b) as X. rewrite E in X. discriminate X.
  - split; [discriminate|]. intros ->.
    pose proof (String.compare_antisym b b) as X. rewrite E in X. discriminate X.
Qed.




Lemma eval_like c p r :
  pattern_ok p = true ->
  Sqlite.eval r (Sqlite.BLike c (Sqlite.Text p))
  = Ret match Sqlite.text_of (Sqlite.column_value r c) with
        | Some s => Some (Sqlite.like p s)
        | None => None
        end.
Proof.
  intros H. cbn [Sqlite.eval]. unfold Sqlite.like3.
  change (Sqlite.LIKE_PATTERN_LENGTH <? Sqlite.value_bytes (Sqlite.Text p))
    with (too_complex (Sqlite.BLike c (Sqlite.Text p))).
  rewrite pattern_ok_too_complex, H. cbn [negb Sqlite.text_of].
  now destruct (Sqlite.text_of _).
Qed.

Lemma eval_like_category p r :
  pattern_ok p = true ->
  Sqlite.eval r (Sqlite.BLike Sqlite.c_category (Sqlite.Text p))
  = Ret (Some (Sqlite.like p (Sqlite.category r))).
Proof. intros H. now rewrite eval_like. Qed.






(* ================================================================== *)
(** * Reporting *)

Lemma add_amounts_ints rows acc :
  all_ints rows = true ->
  add_amounts rows (PyInt acc) = Ret (PyInt (acc + sum_amounts rows)).
Proof.
  revert acc. induction rows as [|r rows IH]; intros acc H;
    cbn [add_amounts sum_amounts fold_right].
  - now rewrite Z.add_0_r.
  - cbn [all_ints forallb] in H. apply andb_prop in H as [Hr H].
    destruct (Sqlite.amount r) as [z|f]; [|discriminate].
    cbn [py_add bind int_of]. rewrite (IH _ H). fold (sum_amounts rows).
    now rewrite Z.add_assoc.
Qed.


(** The table [float_rows] is what logging the amounts
    [float("9007199254740992")] and [float("1.5")], as [main] passes them,
    leaves in an empty table: the first is a whole number and is stored as
    INTEGER, the second as REAL. *)
Example float_rows_logged :
  (conn <- log_expense (fun _ => 0)
             (mkExpense (PyFloat (float_of 4503599627370496 1)) (Some "rent")
                (Some (mkdate 2025 8 20)) None) [] ;;
   log_expense (fun _ => 0)
     (mkExpense (PyFloat (float_of 3 (-1))) (Some "tea")
        (Some (mkdate 2025 8 20)) None) conn)
  = Ret float_rows.
Proof. vm_compute. reflexivity. Qed.







Example summarize_all_of_nothing :
  summarize_spending "all" None None [] = Ret "The total for all categories is: 0".
Proof. reflexivity. Qed.

Example summarize_food_range :
  summarize_spending "food" (Some (mkdate 2025 8 20)) (Some (mkdate 2025 8 21))
    sample_rows
  = Ret "The total for the food category from 08/20/2025 to 08/21/2025 is: 42".
Proof. reflexivity. Qed.

Example summarize_float_rows :
  summarize_spending "all" None None float_rows
  = Ret "The total for all categories is: 9007199254740994.0".
Proof. vm_compute. reflexivity. Qed.

(** 0.1 and 0.2, the floats nearest to them, typed as amounts. *)
Example summarize_tenths :
  summarize_spending "all" None None
    [Sqlite.mkRow 1 (PyFloat (float_of 7205759403792794 (-56))) "tea" None
       "2025-08-20";
     Sqlite.mkRow 2 (PyFloat (float_of 7205759403792794 (-55))) "tea" None
       "2025-08-20"]
  = Ret "The total for all categories is: 0.30000000000000004".
Proof. vm_compute. reflexivity. Qed.

(* ================================================================== *)
(** * More on the date codec *)

(** With three fields the result is decided by [date.fromisoformat] on the
    year field followed by the padded month and day fields. *)
Lemma convert_str_to_date_fields s M D Y rest :
  split "/" s = M :: D :: Y :: rest ->
  convert_str_to_date s
  = try_except
      (d <- fromisoformat (Y ++ pad2 M ++ pad2 D) ;; Ret (Some d))
      IndexError (Ret None).
Proof.
  intros E. unfold convert_str_to_date, pad2. rewrite E.
  cbn [getitem nth_error bind].
  destruct (len M <? 2); cbn [setitem getitem nth_error bind];
    destruct (len D <? 2); reflexivity.
Qed.

Lemma fromisoformat_basic d :
  valid_date d = true ->
  fromisoformat (fmt_0d 4 (year d) ++ fmt_0d 2 (month d) ++ fmt_0d 2 (day d))
  = Ret d.
Proof.
  intros H. destruct (fields_of_valid d H) as (Hy & Hm & Hd).
  apply fmt_ok_inv in Hy as (Yd & Yl & Yv).
  apply fmt_ok_inv in Hm as (Md & Ml & Mv).
  apply fmt_ok_inv in Hd as (Dd & Dl & Dv).
  set (Y := fmt_0d 4 (year d)) in *.
  set (M := fmt_0d 2 (month d)) in *.
  set (D := fmt_0d 2 (day d)) in *.
  assert (HM : M <> EmptyString) by (intros E; rewrite E in Ml; discriminate).
  assert (Hlen : utf8_len (Y ++ M ++ D) = 8).
  { rewrite all_digits_utf8_len
      by (rewrite !all_digits_app, Yd, Md, Dd; reflexivity).
    rewrite !length_app, Yl, Ml, Dl. reflexivity. }
  unfold fromisoformat. rewrite Hlen. cbn [Z.eqb orb Pos.eqb].
  unfold parse_isoformat_date.
  rewrite <- Yl at 1. rewrite (parse_digits_app Y 0 (M ++ D) Yd), Yv.
  rewrite (starts_with_digits "-" M D digit_not_dash Md HM).
  rewrite (starts_with_digits "W" M D digit_not_W Md HM).
  rewrite <- Ml at 1. rewrite (parse_digits_app M 0 D Md), Mv.
  cbn [andb].
  rewrite <- (app_empty_r D), <- Dl at 1.
  rewrite (parse_digits_app D 0 EmptyString Dd), Dv.
  unfold new_date. unfold valid_date in H. rewrite H.
  destruct d; reflexivity.
Qed.

Lemma unpadded_ok_range n : 0 <= n <= 99 -> unpadded_ok n = true.
Proof.
  intros H. apply (range_check unpadded_ok 0 (Z.to_nat 100));
    [now vm_compute | lia].
Qed.

(** X1.  The outcomes of [convert_str_to_date]: [None] when the text has
    fewer than three slash-separated fields, and with three or more either
    a valid calendar date or a [ValueError]; no other exception and no
    other value. *)
Theorem convert_str_to_date_outcomes (s : string) :
  ((List.length (split "/" s) < 3)%nat /\ convert_str_to_date s = Ret None)
  \/ ((3 <= List.length (split "/" s))%nat
      /\ ((exists d, convert_str_to_date s = Ret (Some d)
                     /\ valid_date d = true)
          \/ convert_str_to_date s = Raise ValueError)).
Proof.
  destruct (Nat.lt_ge_cases (List.length (split "/" s)) 3) as [L|L].
  - left. split; [exact L | now apply convert_str_to_date_few_fields].
  - right. split; [exact L | now apply convert_str_to_date_many_fields].
Qed.

(** X2.  Only the first three fields are read: whatever follows a third
    slash does not change the result. *)
Theorem convert_str_to_date_ignores_extra_fields (a b c t : string) :
  lacks "/" a = true -> lacks "/" b = true -> lacks "/" c = true ->
  convert_str_to_date (a ++ "/" ++ b ++ "/" ++ c ++ "/" ++ t)
  = convert_str_to_date (a ++ "/" ++ b ++ "/" ++ c).
Proof.
  intros Ha Hb Hc.
  rewrite (convert_str_to_date_fields _ a b c (split "/" t)).
  - rewrite (convert_str_to_date_fields _ a b c []); [reflexivity|].
    cbn [append]. now rewrite !split_app, split_lacks.
  - cbn [append]. now rewrite !split_app.
Qed.

Lemma convert_str_to_date_ignores_extra_fields_witness :
  convert_str_to_date ("8" ++ "/" ++ "20" ++ "/" ++ "2025" ++ "/" ++ "x/y")
  = convert_str_to_date ("8" ++ "/" ++ "20" ++ "/" ++ "2025").
Proof.
  apply convert_str_to_date_ignores_extra_fields; reflexivity.
Defined.

(** X3.  Month and day may be typed without a leading zero: for every valid
    date the text [M/D/YYYY] parses to that date. *)
Theorem convert_str_to_date_unpadded (d : date) :
  valid_date d = true ->
  convert_str_to_date (unpadded d) = Ret (Some d).
Proof.
  intros H. pose proof (valid_ymd_range _ _ _ H) as (Hy & Hm & Hd).
  destruct (fields_of_valid d H) as (Fy & _ & _).
  apply fmt_ok_inv in Fy as (Yd & _ & _).
  assert (Um : unpadded_ok (month d) = true) by (apply unpadded_ok_range; lia).
  assert (Ud : unpadded_ok (day d) = true) by (apply unpadded_ok_range; lia).
  unfold unpadded_ok in Um, Ud.
  apply andb_prop in Um as [Um Pm]. apply andb_prop in Um as [Dm _].
  apply andb_prop in Ud as [Ud Pd]. apply andb_prop in Ud as [Dd _].
  apply String.eqb_eq in Pm, Pd.
  rewrite (convert_str_to_date_fields _ (str_int (month d)) (str_int (day d))
             (fmt_0d 4 (year d)) []).
  - rewrite Pm, Pd, (fromisoformat_basic d H). reflexivity.
  - unfold unpadded. cbn [append].
    rewrite !split_app, split_lacks;
      (reflexivity || now apply (all_digits_lacks _ _ digit_not_slash)).
Qed.

Lemma convert_str_to_date_unpadded_witness :
  convert_str_to_date (unpadded (mkdate 2025 8 5)) = Ret (Some (mkdate 2025 8 5)).
Proof. apply convert_str_to_date_unpadded. reflexivity. Defined.

Lemma formatForDisplay_length d :
  valid_date d = true -> String.length (formatForDisplay d) = 10%nat.
Proof.
  intros H. destruct (fields_of_valid d H) as (Hy & Hm & Hd).
  apply fmt_ok_inv in Hy as (_ & Yl & _).
  apply fmt_ok_inv in Hm as (_ & Ml & _).
  apply fmt_ok_inv in Hd as (_ & Dl & _).
  unfold formatForDisplay. rewrite !length_app, Yl, Ml, Dl. reflexivity.
Qed.

(** X4.  For valid dates [convert_date_to_string] does not raise, gives a
    text of ten characters, and gives different texts for different dates. *)
Theorem convert_date_to_string_injective (d1 d2 : date) :
  valid_date d1 = true -> valid_date d2 = true ->
  (exists s, convert_date_to_string d1 = Ret s /\ String.length s = 10%nat)
  /\ (convert_date_to_string d1 = convert_date_to_string d2 -> d1 = d2).
Proof.
  intros H1 H2. split.
  - exists (formatForDisplay d1). split;
      [now apply convert_date_to_string_valid | now apply formatForDisplay_length].
  - rewrite !convert_date_to_string_valid by assumption. intros [= E].
    pose proof (convert_str_to_date_display d1 H1) as P1.
    pose proof (convert_str_to_date_display d2 H2) as P2.
    rewrite E in P1. congruence.
Qed.

Lemma convert_date_to_string_injective_witness :
  (exists s, convert_date_to_string (mkdate 2025 8 20) = Ret s
             /\ String.length s = 10%nat)
  /\ (convert_date_to_string (mkdate 2025 8 20)
      = convert_date_to_string (mkdate 2025 8 20)
      -> mkdate 2025 8 20 = mkdate 2025 8 20).
Proof.
  apply convert_date_to_string_injective; reflexivity.
Defined.

(* ================================================================== *)
(** * More on the filter parser *)

Lemma convert_str_to_date_some_valid s d :
  convert_str_to_date s = Ret (Some d) -> valid_date d = true.
Proof.
  intros H.
  destruct (Nat.lt_ge_cases (List.length (split "/" s)) 3) as [L|L].
  - rewrite (convert_str_to_date_few_fields s L) in H. discriminate.
  - destruct (convert_str_to_date_many_fields s L) as [(d' & E & V)|E];
      rewrite E in H; [|discriminate].
    now injection H as <-.
Qed.

Lemma convert_str_to_date_raise s e :
  convert_str_to_date s = Raise e -> e = ValueError.
Proof.
  intros H.
  destruct (Nat.lt_ge_cases (List.length (split "/" s)) 3) as [L|L].
  - rewrite (convert_str_to_date_few_fields s L) in H. discriminate.
  - destruct (convert_str_to_date_many_fields s L) as [(d' & E & V)|E];
      rewrite E in H; [discriminate|]. now injection H as <-.
Qed.

Lemma parse_pass_break_full response c s e :
  parse_pass response = Break c s e ->
  c = nth 0 (split " " response) EmptyString
  /\ opt_valid s = true /\ opt_valid e = true
  /\ (e = None <-> List.length (split " " response) = 2%nat).
Proof.
  unfold parse_pass.
  destruct ((3 <? _) || (_ <? 2)) eqn:E; [discriminate|].
  apply orb_false_elim in E as [E1 E2]. apply Z.ltb_ge in E1, E2.
  assert (Hs : forall w,
             match convert_str_to_date w with
             | Ret (Some x) => valid_date x = true
             | _ => True
             end).
  { intros w. destruct (convert_str_to_date w) as [[x|]|] eqn:C; auto.
    now apply convert_str_to_date_some_valid in C. }
  destruct (negb _).
  - pose proof (Hs (nth 1 (split " " response) EmptyString)) as V1.
    destruct (convert_str_to_date (nth 1 _ _)) as [[x|]|]; try discriminate.
    destruct (2 <? _) eqn:E3.
    + apply Z.ltb_lt in E3.
      pose proof (Hs (nth 2 (split " " response) EmptyString)) as V2.
      destruct (convert_str_to_date (nth 2 _ _)) as [[y|]|]; try discriminate.
      intros [= <- <- <-]. repeat split; auto; [discriminate | lia].
    + apply Z.ltb_ge in E3. intros [= <- <- <-].
      repeat split; auto. lia.
  - destruct (2 <? _) eqn:E3.
    + apply Z.ltb_lt in E3.
      pose proof (Hs (nth 2 (split " " response) EmptyString)) as V2.
      destruct (convert_str_to_date (nth 2 _ _)) as [[y|]|]; try discriminate.
      intros [= <- <- <-]. repeat split; auto; [discriminate | lia].
    + apply Z.ltb_ge in E3. intros [= <- <- <-].
      repeat split; auto. lia.
Qed.

Lemma parse_pass_escapes response e :
  parse_pass response = Escapes e -> e = ValueError.
Proof.
  unfold parse_pass.
  destruct (_ || _); [discriminate|].
  destruct (negb _).
  - destruct (convert_str_to_date (nth 1 _ _)) as [[x|]|e1] eqn:C1;
      try discriminate.
    + destruct (2 <? _); [|discriminate].
      destruct (convert_str_to_date (nth 2 _ _)) as [[y|]|e2] eqn:C2;
        try discriminate.
      intros [= <-]. now apply convert_str_to_date_raise in C2.
    + intros [= <-]. now apply convert_str_to_date_raise in C1.
  - destruct (2 <? _); [|discriminate].
    destruct (convert_str_to_date (nth 2 _ _)) as [[y|]|e2] eqn:C2;
      try discriminate.
    intros [= <-]. now apply convert_str_to_date_raise in C2.
Qed.

Lemma parse_response_break response c s e t :
  parse_pass response = Break c s e ->
  parse_response response t = (Ret (Some (c, s, e)), t).
Proof.
  intros E. destruct t as [[|w p] q]; unfold parse_response;
    cbn [pending printed parse_response_loop]; now rewrite E.
Qed.

Lemma parse_response_escapes response e t :
  parse_pass response = Escapes e ->
  parse_response response t = (Raise e, t).
Proof.
  intros E. destruct t as [[|w p] q]; unfold parse_response;
    cbn [pending printed parse_response_loop]; now rewrite E.
Qed.

(** The re-prompt loop run on [pre ++ "4" :: post]. *)
Lemma parse_response_loop_cancel response msg pre post printed :
  parse_pass response = Reprompt msg ->
  ~ In "4" pre ->
  parse_response_loop response (pre ++ "4" :: post)%list printed
  = (Ret None, mktty post (printed ++ repeat msg (S (List.length pre)))%list).
Proof.
  intros E. revert printed.
  induction pre as [|w pre IH]; intros printed Hpre;
    cbn [app parse_response_loop]; rewrite E.
  - reflexivity.
  - destruct (String.eqb_spec w "4") as [->|Hw];
      [exfalso; apply Hpre; now left|].
    rewrite IH by (intros H; apply Hpre; now right).
    cbn [List.length repeat]. now rewrite <- List.app_assoc.
Qed.

Lemma parse_response_loop_eof response msg pending printed :
  parse_pass response = Reprompt msg ->
  ~ In "4" pending ->
  parse_response_loop response pending printed
  = (Raise EOFError,
     mktty [] (printed ++ repeat msg (S (List.length pending)))%list).
Proof.
  intros E. revert printed.
  induction pending as [|w pending IH]; intros printed Hp;
    cbn [parse_response_loop]; rewrite E.
  - reflexivity.
  - destruct (String.eqb_spec w "4") as [->|Hw];
      [exfalso; apply Hp; now left|].
    rewrite IH by (intros H; apply Hp; now right).
    cbn [List.length repeat]. now rewrite <- List.app_assoc.
Qed.

Lemma in_split_sentinel (l : list string) :
  In "4" l -> exists pre post, l = (pre ++ "4" :: post)%list /\ ~ In "4" pre.
Proof.
  induction l as [|w l IH]; [intros []|].
  destruct (String.eqb_spec w "4") as [->|Hw].
  - intros _. exists [], l. split; [reflexivity | intros []].
  - intros [H|H]; [congruence|].
    destruct (IH H) as (pre & post & -> & Hpre).
    exists (w :: pre), post. split; [reflexivity|].
    intros [X|X]; [congruence | now apply Hpre].
Qed.

Lemma lacks_app c a b : lacks c (a ++ b) = lacks c a && lacks c b.
Proof.
  induction a as [|x a IH]; simpl; [reflexivity|].
  now rewrite IH, andb_assoc.
Qed.

Lemma digit_not_space c : is_digit c = true -> Ascii.eqb c " " = false.
Proof. destruct c as [[] [] [] [] [] [] [] []]; vm_compute; congruence. Qed.

Lemma digit_not_a c : is_digit c = true -> Ascii.eqb c "a" = false.
Proof. destruct c as [[] [] [] [] [] [] [] []]; vm_compute; congruence. Qed.

Lemma formatForDisplay_token d :
  valid_date d = true ->
  lacks " " (formatForDisplay d) = true
  /\ (formatForDisplay d =? "all")%string = false.
Proof.
  intros H. destruct (fields_of_valid d H) as (Hy & Hm & Hd).
  apply fmt_ok_inv in Hy as (Yd & _ & _).
  apply fmt_ok_inv in Hm as (Md & Ml & _).
  apply fmt_ok_inv in Hd as (Dd & _ & _).
  unfold formatForDisplay. split.
  - rewrite !lacks_app.
    rewrite (all_digits_lacks " " _ digit_not_space Md),
      (all_digits_lacks " " _ digit_not_space Dd),
      (all_digits_lacks " " _ digit_not_space Yd).
    reflexivity.
  - destruct (fmt_0d 2 (month d)) as [|a M]; [discriminate|].
    cbn [all_digits] in Md. apply andb_prop in Md as [Ha _].
    cbn [append String.eqb]. now rewrite (digit_not_a a Ha).
Qed.

Lemma parse_pass_command c s e :
  lacks " " c = true -> opt_valid s = true -> opt_valid e = true ->
  parse_pass (command_of (c, s, e)) = Break c s e.
Proof.
  intros Hc Hs He. unfold parse_pass, command_of.
  remember "all" as A eqn:EA.
  assert (Wa : lacks " " A = true) by (subst A; reflexivity).
  destruct s as [s|], e as [e|]; cbn [opt_valid] in Hs, He;
    repeat match goal with
           | V : valid_date ?d = true |- _ =>
               let L := fresh "L" in let N := fresh "N" in
               destruct (formatForDisplay_token d V) as [L N];
               rewrite <- EA in N;
               pose proof (convert_str_to_date_display d V);
               clear V
           end;
    cbn [append];
    rewrite ?app_empty_r;
    repeat (rewrite split_app by assumption);
    rewrite split_lacks by assumption;
    cbn [List.length Z.of_nat Pos.of_succ_nat Pos.succ Z.ltb Z.compare
         Pos.compare Pos.compare_cont orb nth];
    rewrite ?String.eqb_refl;
    repeat match goal with
           | N : (_ =? A)%string = false |- _ => rewrite N; clear N
           | C : convert_str_to_date _ = _ |- _ => rewrite C; clear C
           end;
    reflexivity.
Qed.

(** X5.  Round trip of the command grammar: the text made of a category
    without spaces, the start date in display form or ["all"], and the end
    date in display form if there is one, is parsed back into that filter,
    with nothing printed and no input read. *)
Theorem parse_response_command_roundtrip
    (c : string) (s e : option date) (t : tty) :
  lacks " " c = true -> opt_valid s = true -> opt_valid e = true ->
  parse_response (command_of (c, s, e)) t = (Ret (Some (c, s, e)), t).
Proof.
  intros Hc Hs He. apply parse_response_break. now apply parse_pass_command.
Qed.

Lemma parse_response_command_roundtrip_witness :
  parse_response
    (command_of ("food", Some (mkdate 2025 8 20), Some (mkdate 2025 8 21)))
    (mktty ["next line"] [])
  = (Ret (Some ("food", Some (mkdate 2025 8 20), Some (mkdate 2025 8 21))),
     mktty ["next line"] []).
Proof.
  apply parse_response_command_roundtrip; reflexivity.
Defined.

(** X6.  When [parse_response] returns a filter it has printed nothing and
    read no input; the category is the first token, both dates are valid
    calendar dates, and [end] is null exactly when there are two tokens. *)
Theorem parse_response_filter_facts
    (response : string) (t t' : tty) (c : string) (s e : option date) :
  parse_response response t = (Ret (Some (c, s, e)), t') ->
  t' = t
  /\ c = nth 0 (split " " response) EmptyString
  /\ opt_valid s = true /\ opt_valid e = true
  /\ (e = None <-> List.length (split " " response) = 2%nat).
Proof.
  intros H.
  assert (B : parse_pass response = Break c s e).
  { apply (parse_response_loop_some response (pending t) (printed t) (c, s, e)).
    unfold parse_response in H. now rewrite H. }
  rewrite (parse_response_break _ _ _ _ t B) in H.
  split; [congruence | now apply parse_pass_break_full].
Qed.

Lemma parse_response_filter_facts_witness :
  mktty ["x"] [] = mktty ["x"] []
  /\ "food" = nth 0 (split " " "food 8/20/2025") EmptyString
  /\ opt_valid (Some (mkdate 2025 8 20)) = true /\ opt_valid None = true
  /\ (@None date = None <-> List.length (split " " "food 8/20/2025") = 2%nat).
Proof.
  apply (parse_response_filter_facts "food 8/20/2025" (mktty ["x"] [])).
  reflexivity.
Defined.

(** X7.  A response that is re-prompted for ends with [None] at the first
    line ["4"]: the lines typed before it are read and dropped, the same
    message is printed once for each of them and once more, and the lines
    after the sentinel stay unread. *)
Theorem parse_response_cancel
    (response msg : string) (pre post printed : list string) :
  parse_pass response = Reprompt msg ->
  ~ In "4" pre ->
  parse_response response (mktty (pre ++ "4" :: post)%list printed)
  = (Ret None, mktty post (printed ++ repeat msg (S (List.length pre)))%list).
Proof. intros E H. now apply parse_response_loop_cancel. Qed.

Lemma parse_response_cancel_witness :
  parse_response "onlyone" (mktty (["food all"; "x y"] ++ "4" :: ["rest"])%list [])
  = (Ret None, mktty ["rest"] ([] ++ repeat msg_format 3)%list).
Proof.
  apply (parse_response_cancel "onlyone" msg_format ["food all"; "x y"]).
  - reflexivity.
  - intros [H|[H|[]]]; discriminate H.
Defined.

(** X8.  A response that is re-prompted for, with no line ["4"] in the
    input, reads all of the input, prints the same message once per line
    and once more, and ends in [EOFError]. *)
Theorem parse_response_eof (response msg : string) (t : tty) :
  parse_pass response = Reprompt msg ->
  ~ In "4" (pending t) ->
  parse_response response t
  = (Raise EOFError,
     mktty [] (printed t ++ repeat msg (S (List.length (pending t))))%list).
Proof. intros E H. now apply parse_response_loop_eof. Qed.

Lemma parse_response_eof_witness :
  parse_response "food 8/20" (mktty ["food all"] [])
  = (Raise EOFError, mktty [] ([] ++ repeat msg_date 2)%list).
Proof.
  apply (parse_response_eof "food 8/20" msg_date (mktty ["food all"] [])).
  - reflexivity.
  - intros [H|[]]; discriminate H.
Defined.

(** X9.  [parse_response] raises nothing but [ValueError], from a date
    token, before anything is printed or read, and [EOFError], once the
    input is used up. *)
Theorem parse_response_exceptions (response : string) (t : tty) (e : exn) :
  fst (parse_response response t) = Raise e ->
  (e = ValueError /\ snd (parse_response response t) = t)
  \/ (e = EOFError /\ pending (snd (parse_response response t)) = []).
Proof.
  destruct (parse_pass response) as [c s en|msg|e'] eqn:P.
  - rewrite (parse_response_break _ _ _ _ t P). discriminate.
  - destruct (in_dec string_dec "4" (pending t)) as [I|I].
    + destruct (in_split_sentinel _ I) as (pre & post & E & Hpre).
      unfold parse_response. rewrite E.
      rewrite (parse_response_loop_cancel _ _ _ _ _ P Hpre). discriminate.
    + unfold parse_response.
      rewrite (parse_response_loop_eof _ _ _ (printed t) P I).
      cbn [fst snd pending].
      intros [= <-]. now right.
  - rewrite (parse_response_escapes _ _ t P). cbn [fst snd].
    intros [= <-]. left. split; [now apply parse_pass_escapes in P | reflexivity].
Qed.

Lemma parse_response_exceptions_witness :
  (ValueError = ValueError
   /\ snd (parse_response "food 13/32/2025" (mktty ["4"] [])) = mktty ["4"] [])
  \/ (ValueError = EOFError
      /\ pending (snd (parse_response "food 13/32/2025" (mktty ["4"] []))) = []).
Proof.
  apply (parse_response_exceptions "food 13/32/2025" (mktty ["4"] [])).
  reflexivity.
Defined.

(* ================================================================== *)
(** * The order of texts and of dates *)














(* ================================================================== *)
(** * More on the query builder *)

(** X10.  The statement [list_expenses] splices together is the [SELECT]
    followed, when the filter has clauses, by [WHERE] and the clauses
    joined by [AND], and then by [ORDER BY date DESC]: cutting the last four
    characters removes the [AND] after the last clause and nothing else.  The
    clauses are the one on [desc], the one on the date and the one on the
    category, in this order, and the text has as many [?] placeholders as
    there are parameters. *)
Theorem list_expenses_statement
    (category : string) (start end_ : option date) (desc : option string) :
  fst (list_expenses_query category start end_ desc)
  = "SELECT id, amount, category, desc, date FROM expenses"
    ++ match clauses category start end_ desc with
       | [] => EmptyString
       | args => " WHERE " ++ join_and args ++ " "
       end
    ++ " ORDER BY date DESC"
  /\ snd (list_expenses_query category start end_ desc)
     = filter_params category start end_ desc
  /\ occurrences "?" (fst (list_expenses_query category start end_ desc))
     = List.length (snd (list_expenses_query category start end_ desc)).
Proof.
  unfold list_expenses_query, clauses, filter_params.
  destruct desc, end_, start, (category =? "all")%string;
    repeat split; reflexivity.
Qed.

(** ** Order of the result *)




(** ** The clauses, row by row *)

Lemma eval_like_true p r :
  Sqlite.eval r (Sqlite.BLike Sqlite.c_category (Sqlite.Text p))
  = Ret (Some true) ->
  pattern_ok p = true /\ Sqlite.like p (Sqlite.category r) = true.
Proof.
  intros H. destruct (pattern_ok p) eqn:Hp.
  - rewrite (eval_like_category p r Hp) in H. split; congruence.
  - rewrite eval_too_complex in H; [discriminate|].
    now rewrite pattern_ok_too_complex, Hp.
Qed.

Lemma category_clause_of_eval category r :
  Forall (fun b => Sqlite.eval r b = Ret (Some true))
    (if (category =? "all")%string then []
     else [Sqlite.BLike Sqlite.c_category (Sqlite.Text category)]) ->
  category_clause category (Sqlite.category r) = true.
Proof.
  unfold category_clause. destruct (category =? "all")%string; cbn [orb];
    [reflexivity|].
  intros F. inversion F as [|? ? Hb _]; subst.
  now apply eval_like_true in Hb.
Qed.

Lemma category_clause_eval category r :
  pattern_ok category = true ->
  Forall (fun b => Sqlite.eval r b = Ret (Some true))
    (if (category =? "all")%string then []
     else [Sqlite.BLike Sqlite.c_category (Sqlite.Text category)])
  <-> category_clause category (Sqlite.category r) = true.
Proof.
  intros Hp. split; [apply category_clause_of_eval|].
  unfold category_clause. destruct (category =? "all")%string; cbn [orb].
  - constructor.
  - intros H. constructor; [|constructor].
    now rewrite (eval_like_category category r Hp), H.
Qed.

Lemma bounds_split category start end_ :
  bounds category start end_ None
  = (bounds "all" start end_ None
     ++ (if (category =? "all")%string then []
         else [Sqlite.BLike Sqlite.c_category (Sqlite.Text category)]))%list.
Proof.
  unfold bounds. change ("all" =? "all")%string with true.
  cbn [app]. now rewrite app_nil_r.
Qed.

Lemma select_ret_where bs conn rows r :
  Sqlite.select bs conn = Ret rows -> In r conn ->
  exists k, Sqlite.where_ bs r = Ret k.
Proof.
  revert rows. induction conn as [|x conn IH]; intros rows E Hr;
    [destruct Hr|].
  cbn [Sqlite.select] in E.
  destruct (Sqlite.where_ bs x) as [k|] eqn:W; [|discriminate].
  cbn [bind] in E.
  destruct (Sqlite.select bs conn) as [rows'|] eqn:E'; [|discriminate].
  destruct Hr as [<-|Hr]; [now exists k | now apply (IH rows')].
Qed.

(** When [list_expenses] returns, SQLite has accepted the category as a
    pattern on every row that passes the date clause. *)
Lemma list_expenses_reaches conn category start end_ rows r :
  list_expenses conn category start end_ None = Ret rows ->
  In r conn ->
  Forall (fun b => Sqlite.eval r b = Ret (Some true))
    (bounds "all" start end_ None) ->
  pattern_ok category = true.
Proof.
  rewrite list_expenses_eq. intros E Hr F.
  destruct (Sqlite.select _ conn) as [rows'|] eqn:S; [|discriminate].
  destruct (select_ret_where _ _ _ r S Hr) as [k W].
  rewrite bounds_split, where_app in W.
  apply where_iff in F. rewrite F in W. cbn [bind] in W.
  destruct (String.eqb_spec category "all") as [->|Hc]; [reflexivity|].
  cbn [Sqlite.where_] in W.
  destruct (pattern_ok category) eqn:Hp; [reflexivity|].
  rewrite eval_too_complex in W; [discriminate|].
  now rewrite pattern_ok_too_complex, Hp.
Qed.




(** ** Filters that select the same rows *)

Lemma where_ext bs1 bs2 r :
  map (Sqlite.eval r) bs1 = map (Sqlite.eval r) bs2 ->
  Sqlite.where_ bs1 r = Sqlite.where_ bs2 r.
Proof.
  revert bs2. induction bs1 as [|b bs1 IH]; intros [|b' bs2];
    cbn [map Sqlite.where_]; try discriminate; [reflexivity|].
  intros [= -> H]. now rewrite (IH bs2 H).
Qed.

Lemma where_skip_true bs b r :
  Sqlite.eval r b = Ret (Some true) ->
  Sqlite.where_ (bs ++ [b]) r = Sqlite.where_ bs r.
Proof.
  intros H. rewrite where_app. cbn [Sqlite.where_]. rewrite H. cbn [bind].
  now destruct (Sqlite.where_ bs r) as [[]|].
Qed.

Lemma eval_date_is_between r v :
  Sqlite.eval r (Sqlite.BDateIs (Sqlite.Text v))
  = Sqlite.eval r (Sqlite.BDateBetween (Sqlite.Text v) (Sqlite.Text v)).
Proof.
  cbn [Sqlite.eval]. unfold Sqlite.DATE. f_equal.
  destruct (Sqlite.is_iso_date (Sqlite.date r)); [|reflexivity].
  cbn [Sqlite.eq3 Sqlite.le3 Sqlite.compare option_map].
  rewrite (String.compare_antisym v (Sqlite.date r)).
  destruct (String.compare (Sqlite.date r) v); reflexivity.
Qed.

(** X13.  A filter with only a start date selects what the range from that
    date to itself selects: the two calls return the same list. *)
Theorem list_expenses_single_date_is_range
    (conn : list Sqlite.Row) (category : string) (d : date)
    (desc : option string) :
  list_expenses conn category (Some d) None desc
  = list_expenses conn category (Some d) (Some d) desc.
Proof.
  rewrite !list_expenses_eq. f_equal.
  apply select_ext. intros r. apply where_ext.
  unfold bounds. rewrite !map_app. do 2 f_equal.
  cbn [map param_of_date adapt]. now rewrite eval_date_is_between.
Qed.




(** ** [LIKE] again *)

Lemma pattern_compare_percent_here pat s :
  Sqlite.pattern_compare pat s = true ->
  Sqlite.pattern_compare (String "%" pat) s = true.
Proof.
  intros H. cbn [Sqlite.pattern_compare].
  change (Ascii.eqb "%" "%") with true. cbv iota.
  destruct s; now rewrite H.
Qed.

Lemma pattern_compare_percent_skip pat c s :
  Sqlite.pattern_compare (String "%" pat) s = true ->
  Sqlite.pattern_compare (String "%" pat) (String c s) = true.
Proof.
  cbn [Sqlite.pattern_compare]. change (Ascii.eqb "%" "%") with true.
  cbv iota. intros H. rewrite H. apply orb_true_r.
Qed.

Lemma pattern_compare_percent s : Sqlite.pattern_compare "%" s = true.
Proof.
  induction s as [|c s IH].
  - reflexivity.
  - now apply pattern_compare_percent_skip.
Qed.

Lemma pattern_compare_refl s : Sqlite.pattern_compare s s = true.
Proof.
  induction s as [|c s IH]; [reflexivity|].
  destruct (Ascii.eqb_spec c "%") as [->|N].
  - now apply pattern_compare_percent_skip, pattern_compare_percent_here.
  - cbn [Sqlite.pattern_compare]. apply Ascii.eqb_neq in N. rewrite N.
    now rewrite Ascii.eqb_refl, orb_true_r, IH.
Qed.

Lemma like_percent s : Sqlite.like "%" s = true.
Proof. apply pattern_compare_percent. Qed.

Lemma like_refl s : Sqlite.like s s = true.
Proof. apply pattern_compare_refl. Qed.

(** X15.  The category ["%"] selects what ["all"] selects: typed as a
    category, the wildcard matches the category of every row. *)
Theorem list_expenses_percent_is_all
    (conn : list Sqlite.Row) (start end_ : option date) (desc : option string) :
  list_expenses conn "%" start end_ desc
  = list_expenses conn "all" start end_ desc.
Proof.
  rewrite !list_expenses_eq. f_equal.
  apply select_ext. intros r. unfold bounds.
  change ("%" =? "all")%string with false.
  change ("all" =? "all")%string with true.
  rewrite app_nil_r, List.app_assoc. apply where_skip_true.
  rewrite eval_like_category by reflexivity. now rewrite like_percent.
Qed.

(* ================================================================== *)
(** * Logging, viewing and summing *)

Lemma greatest_ge i ids x :
  In x (i :: ids) -> x <= fold_right Z.max i ids.
Proof.
  induction ids as [|y ids IH]; cbn [fold_right].
  - intros [->|[]]. lia.
  - intros [->|[->|H]].
    + specialize (IH (or_introl eq_refl)). lia.
    + lia.
    + specialize (IH (or_intror H)). lia.
Qed.


Lemma random_rowid_fresh random ids cnt i v :
  Sqlite.random_rowid random ids cnt i = Some v -> ~ In v ids.
Proof.
  revert i. induction cnt as [|cnt IH]; intros i;
    cbn [Sqlite.random_rowid]; [discriminate|].
  destruct (existsb _ ids) eqn:E; [apply IH|].
  intros [= <-] H.
  assert (X : existsb
                (Z.eqb (Z.land (random i) (Z.shiftr Sqlite.MAX_ROWID 1) + 1))
                ids = true).
  { apply existsb_exists. eexists. split; [exact H | apply Z.eqb_refl]. }
  congruence.
Qed.

(** The rowid of a new row is not in use. *)
Lemma new_rowid_fresh random conn rowid :
  Sqlite.new_rowid random conn = Some rowid ->
  ~ In rowid (map Sqlite.id conn).
Proof.
  unfold Sqlite.new_rowid.
  destruct (map Sqlite.id conn) as [|i ids]; [intros _ []|].
  destruct (_ <? _).
  - intros [= <-] H. apply greatest_ge in H. lia.
  - apply random_rowid_fresh.
Qed.


Lemma forallb_perm {A} (f : A -> bool) l1 l2 :
  Permutation l1 l2 -> forallb f l1 = forallb f l2.
Proof.
  induction 1; cbn [forallb]; try congruence.
  now rewrite !andb_assoc, (andb_comm (f y)).
Qed.

Lemma eval_date_is_own d r :
  valid_date d = true -> Sqlite.date r = isoformat d ->
  Sqlite.eval r (Sqlite.BDateIs (Sqlite.Text (isoformat d))) = Ret (Some true).
Proof.
  intros V E. cbn [Sqlite.eval]. unfold Sqlite.DATE.
  rewrite E, (isoformat_is_iso_date d V), Ret_inj. now apply eq3_text.
Qed.

Lemma log_expense_ret random expense conn conn' :
  log_expense random expense conn = Ret conn' ->
  exists r,
    holds r expense
    /\ Sqlite.new_rowid random conn = Some (Sqlite.id r)
    /\ conn' = Sqlite.insert_row r conn.
Proof.
  unfold log_expense.
  destruct (add_expense _ _ _ _ _ _) as [[t rowid]|] eqn:A; cbn [bind fst];
    [|discriminate].
  intros [= <-].
  apply add_expense_ret in A as (a & c & d & Ha & Hc & Hd & Hid & ->).
  eexists. split; [|split; [|reflexivity]].
  - unfold holds. cbn [Sqlite.amount Sqlite.category Sqlite.desc Sqlite.date].
    rewrite Hd. repeat split; assumption.
  - exact Hid.
Qed.

(** X16.  An expense that has just been logged is found by the filter made
    of its own category and date: [list_expenses] returns the row written,
    which holds the amount as stored, the category, the description and the
    date of the expense under a rowid that was not in use, next to rows that
    were in the table before.  This is so for a category of at most 50000
    bytes; with a longer one the expense is logged and the filter raises
    [OperationalError]. *)
Theorem log_expense_then_list
    (random : nat -> Z) (conn conn' : list Sqlite.Row) (expense : Expense)
    (c : string) (d : date) :
  log_expense random expense conn = Ret conn' ->
  exp_category expense = Some c ->
  exp_date expense = Some d ->
  valid_date d = true ->
  exists r,
    holds r expense
    /\ ~ In (Sqlite.id r) (map Sqlite.id conn)
    /\ Permutation conn' (r :: conn)
    /\ (pattern_ok c = true ->
        exists rows,
          list_expenses conn' c (Some d) None None = Ret rows
          /\ In r rows
          /\ forall r', In r' rows -> r' = r \/ In r' conn)
    /\ (pattern_ok c = false ->
        list_expenses conn' c (Some d) None None = Raise OperationalError).
Proof.
  intros L Hc Hd V.
  destruct (log_expense_ret _ _ _ _ L) as (r & H & Hid & ->).
  exists r. split; [exact H|].
  split; [now apply (new_rowid_fresh random)|].
  split; [apply insert_row_perm|].
  destruct H as (_ & Ec & _ & Ed).
  rewrite Hc in Ec. injection Ec as Ec.
  rewrite Hd in Ed. cbn [option_map] in Ed. injection Ed as Ed.
  assert (Hin : In r (Sqlite.insert_row r conn)).
  { apply (Permutation_in _ (Permutation_sym (insert_row_perm r conn))).
    now left. }
  assert (F : Forall (fun b => Sqlite.eval r b = Ret (Some true))
                (bounds "all" (Some d) None None)).
  { unfold bounds. change ("all" =? "all")%string with true. cbn [app].
    constructor; [|constructor]. now apply eval_date_is_own. }
  split.
  - intros Hp. eexists. split; [now apply list_expenses_ok|].
    pose proof (in_list_expenses _ _ _ _ _ _
                  (list_expenses_ok (Sqlite.insert_row r conn) c (Some d)
                     None None Hp eq_refl)) as I.
    split.
    + apply I. split; [exact Hin|].
      rewrite bounds_split, Forall_app. split; [exact F|].
      apply category_clause_eval; [exact Hp|].
      unfold category_clause. rewrite <- Ec, like_refl. apply orb_true_r.
    + intros r' Hr'. apply I in Hr' as [Hr' _].
      apply (Permutation_in _ (insert_row_perm r conn)) in Hr'.
      destruct Hr' as [<-|Hr']; auto.
  - intros Hp.
    destruct (list_expenses (Sqlite.insert_row r conn) c (Some d) None None)
      as [rows|x] eqn:E.
    + pose proof (list_expenses_reaches _ _ _ _ _ r E Hin F). congruence.
    + now apply list_expenses_raise in E as [-> _].
Qed.

Lemma log_expense_then_list_witness :
  exists r,
    holds r (mkExpense (PyFloat (float_of 9 0)) (Some "food")
               (Some (mkdate 2025 8 22)) (Some "tea"))
    /\ ~ In (Sqlite.id r) (map Sqlite.id sample_rows)
    /\ Permutation
         (sample_rows
          ++ [Sqlite.mkRow 5 (PyInt 9) "food" (Some "tea") "2025-08-22"])%list
         (r :: sample_rows)
    /\ (pattern_ok "food" = true ->
        exists rows,
          list_expenses
            (sample_rows
             ++ [Sqlite.mkRow 5 (PyInt 9) "food" (Some "tea") "2025-08-22"])%list
            "food" (Some (mkdate 2025 8 22)) None None = Ret rows
          /\ In r rows
          /\ forall r', In r' rows -> r' = r \/ In r' sample_rows)
    /\ (pattern_ok "food" = false ->
        list_expenses
          (sample_rows
           ++ [Sqlite.mkRow 5 (PyInt 9) "food" (Some "tea") "2025-08-22"])%list
          "food" (Some (mkdate 2025 8 22)) None None = Raise OperationalError).
Proof.
  apply (log_expense_then_list (fun _ => 0) sample_rows _
           (mkExpense (PyFloat (float_of 9 0)) (Some "food")
              (Some (mkdate 2025 8 22)) (Some "tea")));
    reflexivity.
Defined.





(** X19.  With no start date but an end date [summarize_spending] reports
    a total of 0 for the category alone, whatever the table holds: the end
    date is neither used to select rows nor shown. *)
Theorem summarize_spending_end_only
    (conn : list Sqlite.Row) (category : string) (e : date) :
  summarize_spending category None (Some e) conn
  = Ret ("The total for "
         ++ (if (category =? "all")%string then "all categories"
             else "the " ++ category ++ " category")
         ++ " is: 0").
Proof.
  unfold summarize_spending.
  rewrite (list_expenses_empty_range conn category None e None)
    by (intros r; apply eval_between_null).
  cbn [bind add_amounts]. destruct (category =? "all")%string; reflexivity.
Qed.

Lemma sum_amounts_perm l1 l2 :
  Permutation l1 l2 -> sum_amounts l1 = sum_amounts l2.
Proof.
  unfold sum_amounts. induction 1; cbn [fold_right] in *; lia.
Qed.

Lemma summarize_all conn :
  all_ints conn = true ->
  summarize_spending "all" None None conn
  = Ret ("The total for all categories is: " ++ str_int (sum_amounts conn)).
Proof.
  intros H. unfold summarize_spending. rewrite list_expenses_eq.
  change (bounds "all" None None None) with (@nil Sqlite.bound).
  rewrite select_nil. cbn [bind].
  rewrite add_amounts_ints
    by now rewrite <- H; apply forallb_perm, order_by_date_desc_perm.
  cbn [bind]. rewrite Z.add_0_l.
  now rewrite (sum_amounts_perm _ _ (order_by_date_desc_perm _)).
Qed.

(** X20.  For category ["all"] without dates, and a table whose amounts
    are all stored as INTEGER, [summarize_spending] reports the sum of the
    amounts of all rows of the table, in whatever order they are stored. *)
Theorem summarize_spending_grand_total (conn conn' : list Sqlite.Row) :
  Permutation conn conn' ->
  all_ints conn = true ->
  summarize_spending "all" None None conn
  = Ret ("The total for all categories is: " ++ str_int (sum_amounts conn))
  /\ summarize_spending "all" None None conn'
     = summarize_spending "all" None None conn.
Proof.
  intros P H.
  assert (H' : all_ints conn' = true)
    by now rewrite <- H; apply forallb_perm, Permutation_sym.
  rewrite !summarize_all by assumption. split; [reflexivity|].
  now rewrite (sum_amounts_perm _ _ P).
Qed.

Lemma summarize_spending_grand_total_witness :
  summarize_spending "all" None None sample_rows
  = Ret ("The total for all categories is: "
         ++ str_int (sum_amounts sample_rows))
  /\ summarize_spending "all" None None (rev sample_rows)
     = summarize_spending "all" None None sample_rows.
Proof.
  apply summarize_spending_grand_total;
    [apply Permutation_rev | reflexivity].
Defined.

(** With a REAL among the amounts the order of the rows shows in the
    total: 9007199254740992, 1.5 and -9007199254740992 add up to 2.0 in
    this order and to 1.5 with the last two exchanged. *)
Example summarize_spending_float_order :
  let a := Sqlite.mkRow 1 (PyInt 9007199254740992) "rent" None "2025-08-20" in
  let b := Sqlite.mkRow 2 (PyFloat (float_of 3 (-1))) "tea" None "2025-08-20" in
  let c := Sqlite.mkRow 3 (PyInt (-9007199254740992)) "rent" None "2025-08-20" in
  summarize_spending "all" None None [a; b; c]
  = Ret "The total for all categories is: 2.0"
  /\ summarize_spending "all" None None [a; c; b]
     = Ret "The total for all categories is: 1.5".
Proof. vm_compute. split; reflexivity. Qed.

(** X21.  Logging an expense whose amount is stored as the INTEGER [z], in
    a table whose amounts are all stored as INTEGER, raises the grand total
    by [z]. *)
Theorem summarize_spending_after_log
    (random : nat -> Z) (conn conn' : list Sqlite.Row) (expense : Expense)
    (z : Z) :
  log_expense random expense conn = Ret conn' ->
  all_ints conn = true ->
  stored_amount (exp_amount expense) = Some (PyInt z) ->
  summarize_spending "all" None None conn
  = Ret ("The total for all categories is: " ++ str_int (sum_amounts conn))
  /\ summarize_spending "all" None None conn'
     = Ret ("The total for all categories is: "
            ++ str_int (sum_amounts conn + z)).
Proof.
  intros L H Hz.
  destruct (log_expense_ret _ _ _ _ L) as (r & (Ha & _) & _ & ->).
  rewrite Hz in Ha. injection Ha as Ha.
  pose proof (insert_row_perm r conn) as P.
  split; [now apply summarize_all|].
  rewrite summarize_all.
  - rewrite (sum_amounts_perm _ _ P). unfold sum_amounts at 1.
    cbn [fold_right]. fold (sum_amounts conn). rewrite <- Ha. cbn [int_of].
    now rewrite Z.add_comm.
  - unfold all_ints in *. rewrite (forallb_perm _ _ _ P). cbn [forallb].
    now rewrite <- Ha, H.
Qed.

Lemma summarize_spending_after_log_witness :
  summarize_spending "all" None None sample_rows
  = Ret ("The total for all categories is: "
         ++ str_int (sum_amounts sample_rows))
  /\ summarize_spending "all" None None
       (sample_rows
        ++ [Sqlite.mkRow 5 (PyInt 9) "food" (Some "tea") "2025-08-22"])%list
     = Ret ("The total for all categories is: "
            ++ str_int (sum_amounts sample_rows + 9)).
Proof.
  apply (summarize_spending_after_log (fun _ => 0) sample_rows _
           (mkExpense (PyFloat (float_of 9 0)) (Some "food")
              (Some (mkdate 2025 8 22)) (Some "tea")) 9);
    reflexivity.
Defined.
